(** * Verification of the remote deployment orchestrator of ServiceDeploymentManager

    Shallow embedding of the Python code of
    - [app/docker/helper_functions.py] (name derivation),
    - [app/vm_manager/spot_vm_manager.py] (VM allocation, readiness),
    - [app/vm_manager/spot_vm_creator.py] (cloud queries, static IP),
    - [app/vm_manager/traefik_toml_generator.py] (routing entries),
    - [app/docker/docker_compose_remote_vm_utils.py] (deploy pipeline).

    Python strings are modelled as Rocq [string]s, i.e. as sequences of
    ASCII characters; [str.isalnum] and [str.lower] are given their exact
    ASCII behaviour. *)

From Stdlib Require Import Bool ZArith List Lia String Ascii.
From Stdlib Require Import Numbers.DecimalString.
Import ListNotations.
Open Scope string_scope.

(* ------------------------------------------------------------------ *)
(** ** Python string primitives (ASCII) *)

Module Py.

(** [c.isalnum()] on an ASCII character (code point below 128). On other
    characters Python's [str.isalnum] also accepts letters and digits such as
    ["é"]; statements about it are made for ASCII strings only. *)
Definition isalnum (c : ascii) : bool :=
  let n := nat_of_ascii c in
  (Nat.leb 48 n && Nat.leb n 57) || (Nat.leb 65 n && Nat.leb n 90)
  || (Nat.leb 97 n && Nat.leb n 122).

(** [c.lower()] on an ASCII character. *)
Definition lower_char (c : ascii) : ascii :=
  let n := nat_of_ascii c in
  if Nat.leb 65 n && Nat.leb n 90 then ascii_of_nat (n + 32) else c.

Fixpoint map_str (f : ascii -> ascii) (s : string) : string :=
  match s with
  | EmptyString => EmptyString
  | String c s' => String (f c) (map_str f s')
  end.

(** [s.lower()] *)
Definition lower (s : string) : string := map_str lower_char s.

(** [''.join(c for c in s if p(c))] *)
Fixpoint filter_str (p : ascii -> bool) (s : string) : string :=
  match s with
  | EmptyString => EmptyString
  | String c s' => if p c then String c (filter_str p s') else filter_str p s'
  end.

(** [s.replace(a, b)] for one-character [a] and [b]. *)
Definition replace_char (a b : ascii) (s : string) : string :=
  map_str (fun c => if Ascii.eqb c a then b else c) s.

(** [s.replace(a, "")] for one-character [a]. *)
Definition remove_char (a : ascii) (s : string) : string :=
  filter_str (fun c => negb (Ascii.eqb c a)) s.

(** [s.split(a)[0]] for one-character [a]: the part before the first [a]. *)
Fixpoint split_first (a : ascii) (s : string) : string :=
  match s with
  | EmptyString => EmptyString
  | String c s' => if Ascii.eqb c a then EmptyString else String c (split_first a s')
  end.

(** [s[:n]] *)
Fixpoint take (n : nat) (s : string) : string :=
  match n, s with
  | O, _ => EmptyString
  | _, EmptyString => EmptyString
  | S n', String c s' => String c (take n' s')
  end.

(** Truthiness of an optional string argument ([None] and [""] are falsy). *)
Definition truthy (o : option string) : bool :=
  match o with
  | Some (String _ _) => true
  | _ => false
  end.

(** [str(n)] for a Python [int]. *)
Definition str_of_int (n : Z) : string := NilEmpty.string_of_int (Z.to_int n).

(** [" ".join(parts)] *)
Fixpoint join (sep : string) (parts : list string) : string :=
  match parts with
  | [] => ""
  | [p] => p
  | p :: ps => p ++ sep ++ join sep ps
  end.

(** [sub in s] *)
Fixpoint contains (sub s : string) : bool :=
  if String.prefix sub s then true
  else match s with
       | EmptyString => false
       | String _ s' => contains sub s'
       end.

End Py.

(* ------------------------------------------------------------------ *)
(** ** Name derivation: [helper_functions.py], [SpotVMManager.get_user_vm_name] *)

Module Names.

(** [extract_user_id]: [user_id.replace(".", "").split("@")[0]] *)
Definition extract_user_id (user_id : string) : string :=
  Py.split_first "@" (Py.remove_char "." user_id).

(** [generate_project_name_from_user_workspace] *)
Definition generate_project_name_from_user_workspace (username workspace_name : string) : string :=
  let sanitized_workspace := Py.replace_char " " "-" (Py.lower workspace_name) in
  let extracted_user_id := extract_user_id username in
  sanitized_workspace ++ "-" ++ extracted_user_id.

(** [generate_context_name_from_user_workspace] *)
Definition generate_context_name_from_user_workspace (username workspace_name : string) : string :=
  let extracted_user_id := extract_user_id username in
  let sanitized_user_id := Py.filter_str Py.isalnum extracted_user_id in
  let sanitized_workspace_name := Py.filter_str Py.isalnum workspace_name in
  "ws-" ++ sanitized_user_id ++ "-" ++ sanitized_workspace_name.

(** The filter of [get_user_vm_name]: [c.isalnum() or c == '-']. *)
Definition vm_char (c : ascii) : bool := Py.isalnum c || Ascii.eqb c "-".

(** [SpotVMManager.get_user_vm_name(user_id, workspace_id=None, use_workspace=False)] *)
Definition get_user_vm_name (user_id : string) (workspace_id : option string)
    (use_workspace : bool) : string :=
  let clean_user_id := Py.lower (Py.filter_str vm_char user_id) in
  if Py.truthy workspace_id && use_workspace then
    let clean_workspace_id :=
      Py.lower (Py.filter_str vm_char (match workspace_id with Some w => w | None => "" end)) in
    Py.take 64 ("vm-" ++ clean_user_id ++ "-" ++ clean_workspace_id)
  else Py.take 64 ("vm-" ++ clean_user_id).

(** Characters of the cloud-safe alphabet [[a-z0-9-]]. *)
Definition safe_char (c : ascii) : bool :=
  let n := nat_of_ascii c in
  (Nat.leb 48 n && Nat.leb n 57) || (Nat.leb 97 n && Nat.leb n 122) || Nat.eqb n 45.

Fixpoint all_chars (p : ascii -> bool) (s : string) : bool :=
  match s with
  | EmptyString => true
  | String c s' => p c && all_chars p s'
  end.

(** Characters with a code point below 128. *)
Definition is_ascii (c : ascii) : bool := Nat.ltb (nat_of_ascii c) 128.

End Names.

(* ------------------------------------------------------------------ *)
(** ** Routing configuration: [TraefikTomlGenerator.generate_toml] *)

Module Traefik.

(** A Python dict keyed by strings, in insertion order. *)
Definition dict (V : Type) := list (string * V).

(** [d[k] = v]: an existing key keeps its position, a new key is appended. *)
Fixpoint dict_set {V} (k : string) (v : V) (d : dict V) : dict V :=
  match d with
  | [] => [(k, v)]
  | (k', v') :: d' => if String.eqb k k' then (k, v) :: d' else (k', v') :: dict_set k v d'
  end.

(** The value stored under [routers[router_name]]. *)
Record router := {
  rule : string;
  r_service : string;
  entryPoints : list string;
  middlewares : list string;
  certResolver : string
}.

(** The value stored under [services[service_entry_name]]: the backend URLs
    of its load balancer. *)
Record lb_service := { servers : list string }.

(** The [config] dict written to the TOML file. *)
Record toml_config := {
  routers : dict router;
  services : dict lb_service
}.

(** State of the loop of [generate_toml]. *)
Record gen_state := {
  g_routers : dict router;
  g_services : dict lb_service;
  g_final_urls : list string
}.

Section Generator.
Variable base_url : string.
Variable service_name : string.
Variable private_ip : string.

(** Body of the inner loop, for one port with its suffix. *)
Definition emit (service : string) (suffix : string) (port : Z) (g : gen_state) : gen_state :=
  let router_name := service_name ++ "-" ++ service ++ suffix in
  let service_entry_name := service_name ++ "-" ++ service ++ suffix in
  let url := service_entry_name ++ "." ++ base_url in
  {| g_routers := dict_set router_name
        {| rule := "Host(`" ++ url ++ "`)"; r_service := service_entry_name;
           entryPoints := ["websecure"]; middlewares := ["sslheader"];
           certResolver := "letsencrypt" |} (g_routers g);
     g_services := dict_set service_entry_name
        {| servers := ["http://" ++ private_ip ++ ":" ++ Py.str_of_int port] |} (g_services g);
     g_final_urls := app (g_final_urls g) [url] |}.

(** [for port in ports: suffix = str(index) if multiport else ''; index += 1; ...] *)
Fixpoint emit_ports (service : string) (multiport : bool) (index : Z) (ports : list Z)
    (g : gen_state) : gen_state :=
  match ports with
  | [] => g
  | port :: ports' =>
      let suffix := if multiport then Py.str_of_int index else "" in
      emit_ports service multiport (index + 1) ports' (emit service suffix port g)
  end.

(** [for service, ports in service_ports.items(): ...] *)
Fixpoint emit_services (service_ports : dict (list Z)) (g : gen_state) : gen_state :=
  match service_ports with
  | [] => g
  | (service, ports) :: rest =>
      let multiport := Nat.ltb 1 (List.length ports) in
      emit_services rest (emit_ports service multiport 1 ports g)
  end.

End Generator.

(** [generate_toml(service_name, private_ip, service_ports)] on a generator
    with [self.base_url = base_url] and [self.base_location = base_location]:
    the path written, the [final_urls] returned and the [config] dumped. *)
Definition generate_toml (base_url base_location : string) (service_name private_ip : string)
    (service_ports : dict (list Z)) : string * list string * toml_config :=
  let g := emit_services base_url service_name private_ip service_ports
             {| g_routers := []; g_services := []; g_final_urls := [] |} in
  (base_location ++ "/" ++ service_name ++ ".toml", g_final_urls g,
   {| routers := g_routers g; services := g_services g |}).

End Traefik.

(* ------------------------------------------------------------------ *)
(** ** Compose command lines: [DockerComposeRemoteVMUtils.generate_*_command] *)

Module Compose.

(** [generate_deploy_command(compose_file, project_name, env_file_arg, context_name)];
    [None] and [""] arguments are falsy. *)
Definition generate_deploy_command (compose_file project_name : string)
    (env_file_arg context_name : option string) : string :=
  let parts := ["docker"] in
  let parts := if Py.truthy context_name
               then app parts ["--context"; match context_name with Some c => c | None => "" end]
               else parts in
  let parts := app parts ["compose"] in
  let parts := app parts ["-f"; compose_file] in
  let parts := app parts ["-p"; project_name] in
  let parts := if Py.truthy env_file_arg
               then app parts [match env_file_arg with Some e => e | None => "" end]
               else parts in
  let parts := app parts ["up"] in
  let parts := app parts ["-d"] in
  let parts := app parts ["--build"] in
  Py.join " " parts.

(** [generate_build_command(...)] *)
Definition generate_build_command (compose_file project_name : string)
    (env_file_arg context_name : option string) : string :=
  let parts := ["docker"] in
  let parts := if Py.truthy context_name
               then app parts ["--context"; match context_name with Some c => c | None => "" end]
               else parts in
  let parts := app parts ["compose"] in
  let parts := app parts ["-f"; compose_file] in
  let parts := app parts ["-p"; project_name] in
  let parts := if Py.truthy env_file_arg
               then app parts [match env_file_arg with Some e => e | None => "" end]
               else parts in
  let parts := app parts ["build"] in
  Py.join " " parts.

End Compose.

(* ------------------------------------------------------------------ *)
(** ** Static private IP: [SpotVMCreator._generate_static_ip] *)

Module StaticIP.

Open Scope Z_scope.

(** The value of a hexadecimal digit ([int(c, 16)] on one character). *)
Definition hex_val (c : ascii) : option Z :=
  let n := Z.of_nat (nat_of_ascii c) in
  if (48 <=? n) && (n <=? 57) then Some (n - 48)
  else if (97 <=? n) && (n <=? 102) then Some (n - 87)
  else if (65 <=? n) && (n <=? 70) then Some (n - 55)
  else None.

Fixpoint int16_acc (acc : Z) (s : string) : option Z :=
  match s with
  | EmptyString => Some acc
  | String c s' =>
      match hex_val c with
      | Some d => int16_acc (16 * acc + d) s'
      | None => None
      end
  end.

(** [int(s, 16)]; [None] is the [ValueError] raised on an empty string or a
    non-hexadecimal character.  (Signs, a [0x] prefix, underscores and
    surrounding blanks, which Python also accepts, never occur in an MD5
    hex digest.) *)
Definition int16 (s : string) : option Z :=
  match s with
  | EmptyString => None
  | _ => int16_acc 0 s
  end.

(** An [ipaddress.IPv4Network(cidr, strict=False)] as parsed: the address
    part and the prefix length. *)
Record cidr := { c_addr : Z; c_prefixlen : Z }.

Definition netmask (p : Z) : Z := Z.shiftl (Z.ones p) (32 - p).
Definition network_address (c : cidr) : Z := Z.land (c_addr c) (netmask (c_prefixlen c)).
Definition num_addresses (c : cidr) : Z := 2 ^ (32 - c_prefixlen c).
Definition broadcast_address (c : cidr) : Z := network_address c + num_addresses c - 1.

(** [range(lo, lo + n)] *)
Fixpoint range_Z (lo : Z) (n : nat) : list Z :=
  match n with
  | O => []
  | S n' => lo :: range_Z (lo + 1) n'
  end.

(** [list(network.hosts())]: every address strictly between the network and
    broadcast addresses; a /31 yields both its addresses, a /32 its only one. *)
Definition hosts (c : cidr) : list Z :=
  let net := network_address c in
  if c_prefixlen c =? 32 then [net]
  else if c_prefixlen c =? 31 then [net; net + 1]
  else range_Z (net + 1) (Z.to_nat (num_addresses c - 2)).

(** [str(IPv4Address(a))]: dotted-quad notation. *)
Definition ip_str (a : Z) : string :=
  Py.str_of_int (Z.shiftr a 24 mod 256) ++ "." ++ Py.str_of_int (Z.shiftr a 16 mod 256) ++ "."
  ++ Py.str_of_int (Z.shiftr a 8 mod 256) ++ "." ++ Py.str_of_int (a mod 256).

(** Parse of the common CIDR form ["a.b.c.d/n"], used to build inputs. *)
Definition of_octets (a b c d p : Z) : cidr :=
  {| c_addr := a * 2 ^ 24 + b * 2 ^ 16 + c * 2 ^ 8 + d; c_prefixlen := p |}.

Section Generate.

(** [hashlib.md5(s.encode()).hexdigest()] *)
Variable md5_hexdigest : string -> string.

(** [_generate_static_ip(vm_name, subnet)], where [subnet_network] is the
    outcome of [ipaddress.IPv4Network(subnet.address_prefix, strict=False)]
    ([None]: the [ValueError] of an unparsable prefix).  [None] as a result is
    an exception escaping the fallback branch. *)
Definition generate_static_ip (vm_name : string) (subnet_network : option cidr) : option string :=
  let vm_hash := md5_hexdigest vm_name in
  let primary :=
    match subnet_network with
    | None => None
    | Some network =>
        let available_ips := skipn 10 (hosts network) in
        match int16 (Py.take 8 vm_hash) with
        | None => None
        | Some hash_int =>
            if (List.length available_ips =? 0)%nat then None   (* ZeroDivisionError *)
            else
              let ip_index := hash_int mod Z.of_nat (List.length available_ips) in
              match nth_error available_ips (Z.to_nat ip_index) with
              | Some selected_ip => Some (ip_str selected_ip)
              | None => None   (* IndexError *)
              end
        end
    end in
  match primary with
  | Some selected_ip => Some selected_ip
  | None =>
      match int16 (Py.take 4 vm_hash) with
      | Some hash_int =>
          let ip_suffix := 100 + hash_int mod 155 in
          Some ("10.0.0." ++ Py.str_of_int ip_suffix)
      | None => None
      end
  end.

End Generate.

(** Shape of an MD5 hex digest: 32 lowercase hexadecimal characters. *)
Definition is_lower_hex (c : ascii) : bool :=
  let n := nat_of_ascii c in
  (Nat.leb 48 n && Nat.leb n 57) || (Nat.leb 97 n && Nat.leb n 102).

Definition hexdigest_shape (h : string) : bool :=
  Nat.eqb (String.length h) 32 && Names.all_chars is_lower_hex h.

End StaticIP.

(* ------------------------------------------------------------------ *)
(** ** Cloud provisioner and VM lifecycle manager *)

Module VM.

(** Python values met on the allocation path. *)
#[warnings="-register-all"]
Inductive pyval :=
| PNone
| PBool (b : bool)
| PStr (s : string)
| PNum (z : Z)
| PDict (kvs : list (string * pyval))          (* a [dict] *)
| PObj (cls : string) (attrs : list (string * pyval))  (* an object with data attributes *)
| PCoro (result : pyval).                      (* a coroutine completing with [result] *)

(** Python truthiness. *)
Definition py_truthy (v : pyval) : bool :=
  match v with
  | PNone => false
  | PBool b => b
  | PStr s => negb (String.eqb s "")
  | PNum z => negb (Z.eqb z 0)
  | PDict kvs => match kvs with [] => false | _ => true end
  | PObj _ _ | PCoro _ => true
  end.

Definition opt_str (o : option string) : pyval :=
  match o with Some s => PStr s | None => PNone end.

(** Exceptions raised on these paths. *)
Inductive exn :=
| ResourceNotFoundError                 (* azure.core.exceptions.ResourceNotFoundError *)
| CloudError (msg : string)             (* any other failure of a cloud API call *)
| AttributeError (name : string)
| TypeError (msg : string)
| IndexError
| ValueError (msg : string)
| VMNotFoundException.

Definition exn_is_VMNotFound (e : exn) : bool :=
  match e with VMNotFoundException => true | _ => false end.

(** Answer of one cloud API call. *)
Inductive api_result (A : Type) :=
| ApiOk (a : A)
| ApiNotFound
| ApiError (msg : string).
Arguments ApiOk {A} a.
Arguments ApiNotFound {A}.
Arguments ApiError {A} msg.

(** What [compute_client.virtual_machines.get] returns. *)
Record vm_resource := {
  vm_id : string;
  vm_location : string;
  vm_size : string;
  vm_priority : string;
  vm_nic_ids : list string    (* [network_profile.network_interfaces[i].id] *)
}.

(** The cloud as observed through the read APIs used by [SpotVMCreator]. *)
Record cloud := {
  vm_get : string -> api_result vm_resource;           (* virtual_machines.get *)
  vm_instance_view : string -> api_result (list string); (* instance_view(...).statuses codes *)
  nic_get : string -> api_result (list pyval)           (* ip_configurations[i].private_ip_address *)
}.

(** Calls made on the cloud, the workspace store, the VM and the clock. *)
Inductive call :=
| CGetVM (name : string)
| CInstanceView (name : string)
| CGetNic (name : string)
| CCreate (name : string)
| CStart (name : string)
| CDelete (name : string)
| CDbUpdate (user workspace : string)
| CDockerCleanup (name : string)
| CRunCommand (name script : string)
| CSleep (secs : Z).

Definition is_provisioning (c : call) : bool :=
  match c with CCreate _ | CStart _ | CDelete _ => true | _ => false end.

Record st := {
  cloud_of : cloud;
  calls : list call;     (* most recent first *)
  clock : Z;             (* time.time() *)
  db_ok : bool           (* the answer of WorkspaceRepository.update_workspace *)
}.

Inductive outcome (A : Type) := Ok (a : A) | Exc (e : exn).
Arguments Ok {A} a.
Arguments Exc {A} e.

(** State and exception monad of the synchronous and [async] code. *)
Definition M (A : Type) := st -> outcome A * st.

Definition ret {A} (a : A) : M A := fun s => (Ok a, s).
Definition raise {A} (e : exn) : M A := fun s => (Exc e, s).
Definition bind {A B} (m : M A) (k : A -> M B) : M B :=
  fun s => match m s with
           | (Ok a, s') => k a s'
           | (Exc e, s') => (Exc e, s')
           end.
(** [try: m except Exception as e: h(e)] *)
Definition try_except {A} (m : M A) (h : exn -> M A) : M A :=
  fun s => match m s with
           | (Ok a, s') => (Ok a, s')
           | (Exc e, s') => h e s'
           end.

Notation "x <- m ;; k" := (bind m (fun x => k)) (at level 61, m at next level, right associativity).
Notation "m ;;; k" := (bind m (fun _ => k)) (at level 61, right associativity).

Definition record (c : call) : M unit :=
  fun s => (Ok tt, {| cloud_of := cloud_of s; calls := c :: calls s; clock := clock s; db_ok := db_ok s |}).

Definition set_cloud (c : cloud) : M unit :=
  fun s => (Ok tt, {| cloud_of := c; calls := calls s; clock := clock s; db_ok := db_ok s |}).

Definition get_state : M st := fun s => (Ok s, s).

(** A cloud API call: recorded, then answered by the current cloud. *)
Definition api {A} (c : call) (f : cloud -> api_result A) : M A :=
  record c ;;;
  s <- get_state ;;
  match f (cloud_of s) with
  | ApiOk a => ret a
  | ApiNotFound => raise ResourceNotFoundError
  | ApiError m => raise (CloudError m)
  end.

(** [time.sleep(secs)] *)
Definition sleep (secs : Z) : M unit :=
  record (CSleep secs) ;;;
  fun s => (Ok tt, {| cloud_of := cloud_of s; calls := calls s; clock := clock s + secs; db_ok := db_ok s |}).

(** [l[i]] *)
Definition index {A} (l : list A) (i : nat) : M A :=
  match nth_error l i with Some a => ret a | None => raise IndexError end.

(** [getattr(v, name)] for a data attribute: only objects have them; a [dict]
    keeps its entries as items, not attributes. *)
Definition getattr (v : pyval) (name : string) : M pyval :=
  match v with
  | PObj _ attrs =>
      match find (fun kv => String.eqb (fst kv) name) attrs with
      | Some kv => ret (snd kv)
      | None => raise (AttributeError name)
      end
  | _ => raise (AttributeError name)
  end.

(** [await v]: only awaitables can be awaited. *)
Definition py_await (v : pyval) : M pyval :=
  match v with
  | PCoro r => ret r
  | _ => raise (TypeError "object can't be used in 'await' expression")
  end.

(** [s.split('/')[-1]] *)
Fixpoint last_segment_acc (acc : string) (s : string) : string :=
  match s with
  | EmptyString => acc
  | String c s' => if Ascii.eqb c "/" then last_segment_acc "" s'
                   else last_segment_acc (acc ++ String c EmptyString) s'
  end.
Definition last_segment (s : string) : string := last_segment_acc "" s.

(** The configuration a [SpotVMCreator] was built with. *)
Record creator := {
  resource_group : string;
  vnet_name : string;
  subnet_name : string
}.

(** Class attributes of [SpotVMCreator], in source order. *)
Definition SpotVMCreator_methods : list string :=
  ["__init__"; "_get_cloud_init_data"; "create_spot_vm"; "vm_exists"; "get_vm_status";
   "get_vm_details"; "start_vm"; "stop_vm"; "_wait_for_vm_running"; "get_vm_ip";
   "list_user_vms"; "update_workspace_table"; "delete_spot_vm";
   "clear_workspace_vm_config"; "_generate_static_ip"; "ensure_static_ip"].

Section Creator.
Variable cr : creator.

(** [SpotVMCreator.vm_exists] *)
Definition vm_exists (vm_name : string) : M bool :=
  try_except (api (CGetVM vm_name) (fun c => vm_get c vm_name) ;;; ret true)
             (fun _ => ret false).

(** [SpotVMCreator.get_vm_status]: both handlers return [None]. *)
Definition get_vm_status (vm_name : string) : M (option string) :=
  try_except
    (statuses <- api (CInstanceView vm_name) (fun c => vm_instance_view c vm_name) ;;
     ret (match find (fun code => String.prefix "PowerState/" code) statuses with
          | Some code => Some (last_segment code)
          | None => None
          end))
    (fun e => match e with
              | ResourceNotFoundError => ret None
              | _ => ret None
              end).

(** [SpotVMCreator.get_vm_details]: both handlers return [None]. *)
Definition get_vm_details (vm_name : string) : M pyval :=
  try_except
    (vm <- api (CGetVM vm_name) (fun c => vm_get c vm_name) ;;
     status <- get_vm_status vm_name ;;
     nic_id <- index (vm_nic_ids vm) 0 ;;
     let nic_name := last_segment nic_id in
     ips <- api (CGetNic nic_name) (fun c => nic_get c nic_name) ;;
     private_ip <- index ips 0 ;;
     s <- get_state ;;
     ret (PDict [("vm_name", PStr vm_name); ("vm_id", PStr (vm_id vm));
                 ("resource_group", PStr (resource_group cr)); ("location", PStr (vm_location vm));
                 ("vm_size", PStr (vm_size vm)); ("private_ip", private_ip);
                 ("nic_id", PStr nic_id); ("vnet_name", PStr (vnet_name cr));
                 ("subnet_name", PStr (subnet_name cr)); ("status", opt_str status);
                 ("priority", PStr (vm_priority vm)); ("created_at", PNum (clock s))]))
    (fun e => match e with
              | ResourceNotFoundError => ret PNone
              | _ => ret PNone
              end).

(** [SpotVMCreator.update_workspace_table]: a synchronous method returning the
    store's answer ([False] also on any error). *)
Definition update_workspace_table (username workspace_name : string) (vm_config : pyval) : M pyval :=
  record (CDbUpdate username workspace_name) ;;;
  s <- get_state ;;
  ret (PBool (db_ok s)).

(** [self.vm_creator.run_vm_command(vm_name, script)]: attribute lookup on the
    class; a defined method would run [script] on the VM and return its
    output [vm_output vm_name script] ([None] on failure). *)
Definition run_vm_command (vm_output : string -> string -> option string) (vm_name script : string) : M pyval :=
  if existsb (String.eqb "run_vm_command") SpotVMCreator_methods
  then record (CRunCommand vm_name script) ;;; ret (opt_str (vm_output vm_name script))
  else raise (AttributeError "run_vm_command").

End Creator.

(** The VM a call is about, if any. *)
Definition call_vm (c : call) : option string :=
  match c with
  | CGetVM n | CInstanceView n | CCreate n | CStart n | CDelete n
  | CDockerCleanup n | CRunCommand n _ => Some n
  | CGetNic _ | CDbUpdate _ _ | CSleep _ => None
  end.

(** [c] concerns no VM other than [name]. *)
Definition about_vm (name : string) (c : call) : bool :=
  match call_vm c with Some n => String.eqb n name | None => true end.

(** [m] only adds calls satisfying [P] to the log. *)
Definition logs (P : call -> bool) {A} (m : M A) : Prop :=
  forall s, exists new, calls (snd (m s)) = app new (calls s) /\ forallb P new = true.

(** [m] first makes the call [c], then only calls satisfying [P]. *)
Definition logs_from (P : call -> bool) (c : call) {A} (m : M A) : Prop :=
  forall s, exists new, calls (snd (m s)) = app new (c :: calls s) /\ forallb P new = true.

(** A computation that never answers [True]. *)
Definition never_true (m : M bool) : Prop := forall s, fst (m s) <> Ok true.

End VM.

Module Manager.
Import VM.

(** Modelled from the spec: [VMInfoResult] of
    [app/models/results/vm_operation_results.py], which is not among the
    sources; the spec gives the returned record as {private_ip, vm_name, status}. *)
Record VMInfoResult := { ip : pyval; vm_status : pyval; vm_name : pyval }.

(** The cloud operations of [SpotVMCreator] that change the VM
    ([start_vm] with its polling, [delete_spot_vm], [create_spot_vm] with its
    Azure provisioning sequence), the validation of the configuration and
    [config.admin_username]. [delete_op] is a deletion that succeeds; the
    failures of [delete_spot_vm] are modelled by [VMOps.delete_spot_vm_raising]. *)
Record provisioner := {
  start_op : string -> cloud -> bool * cloud;
  delete_op : string -> cloud -> cloud;
  create_op : string -> string -> string -> cloud -> outcome pyval * cloud;
  config_valid : bool;
  admin_username : string
}.

Section Manager.
Variable cr : creator.
Variable pv : provisioner.

Definition start_vm (name : string) : M bool :=
  record (CStart name) ;;;
  s <- get_state ;;
  let '(ok, c) := start_op pv name (cloud_of s) in
  set_cloud c ;;; ret ok.

Definition delete_spot_vm (name : string) : M unit :=
  record (CDelete name) ;;;
  s <- get_state ;;
  set_cloud (delete_op pv name (cloud_of s)).

Definition create_spot_vm (name size admin : string) : M pyval :=
  record (CCreate name) ;;;
  s <- get_state ;;
  let '(r, c) := create_op pv name size admin (cloud_of s) in
  set_cloud c ;;;
  match r with Ok v => ret v | Exc e => raise e end.

(** [self.config.validate()] *)
Definition validate : M unit :=
  if config_valid pv then ret tt else raise (ValueError "invalid configuration").

(** [SpotVMManager.check_user_vm_allocation] *)
Definition check_user_vm_allocation (user_id : string) (workspace_id : option string) : M pyval :=
  let name := Names.get_user_vm_name user_id workspace_id false in
  try_except
    (vm_details <- get_vm_details cr name ;;
     if py_truthy vm_details then ret vm_details else ret PNone)
    (fun e => if exn_is_VMNotFound e then ret PNone else ret PNone).

(** [SpotVMManager.is_vm_running] *)
Definition is_vm_running (name : string) : M bool :=
  try_except
    (status <- get_vm_status name ;;
     ret (match status with Some st => String.eqb st "running" | None => false end))
    (fun e => if exn_is_VMNotFound e then raise e else ret false).

(** [await self._perform_vm_docker_cleanup(...)]: every error is swallowed. *)
Definition perform_vm_docker_cleanup (name : string) : M unit :=
  record (CDockerCleanup name).

(** [if workspace_id: await self.vm_creator.update_workspace_table(...)] *)
Definition await_update_if (user_id : string) (workspace_id : option string) (vm : pyval) : M unit :=
  match workspace_id with
  | Some ws =>
      if Py.truthy workspace_id
      then r <- update_workspace_table user_id ws vm ;; py_await r ;;; ret tt
      else ret tt
  | None => ret tt
  end.

(** [VMInfoResult(ip=v.private_ip, vm_status=v.status, vm_name=v.vm_name)] *)
Definition info_of (v : pyval) : M VMInfoResult :=
  ip <- getattr v "private_ip" ;;
  st <- getattr v "status" ;;
  nm <- getattr v "vm_name" ;;
  ret {| ip := ip; vm_status := st; vm_name := nm |}.

(** The "Create a new VM" tail of [allocate_or_reuse_vm]. *)
Definition create_new (user_id : string) (workspace_id : option string) (name size : string)
    : M VMInfoResult :=
  validate ;;;
  vm_config <- create_spot_vm name size (admin_username pv) ;;
  await_update_if user_id workspace_id vm_config ;;;
  sleep 10 ;;;
  perform_vm_docker_cleanup name ;;;
  info_of vm_config.

(** [SpotVMManager.allocate_or_reuse_vm] *)
Definition allocate_or_reuse_vm (user_id : string) (workspace_id : option string)
    (vm_name_arg vm_size_arg : option string) (force_recreate : bool) : M VMInfoResult :=
  let name := match vm_name_arg with
              | Some n => if Py.truthy vm_name_arg then n
                          else Names.get_user_vm_name user_id workspace_id false
              | None => Names.get_user_vm_name user_id workspace_id false
              end in
  let size := match vm_size_arg with
              | Some z => if Py.truthy vm_size_arg then z else "Standard_B2ats_v2"
              | None => "Standard_B2ats_v2"
              end in
  existing_vm <- check_user_vm_allocation user_id workspace_id ;;
  if py_truthy existing_vm && negb force_recreate then
    running <- is_vm_running name ;;
    if running then
      await_update_if user_id workspace_id existing_vm ;;;
      (if Bool.eqb force_recreate false then perform_vm_docker_cleanup name else ret tt) ;;;
      info_of existing_vm
    else
      started <- start_vm name ;;
      if started then
        updated_vm <- get_vm_details cr name ;;
        await_update_if user_id workspace_id updated_vm ;;;
        perform_vm_docker_cleanup name ;;;
        info_of updated_vm
      else
        delete_spot_vm name ;;; sleep 30 ;;;
        create_new user_id workspace_id name size
  else if force_recreate && py_truthy existing_vm then
    delete_spot_vm name ;;; sleep 30 ;;;
    create_new user_id workspace_id name size
  else create_new user_id workspace_id name size.

(** [SpotVMManager.is_vm_docker_ready]; [vm_output] is what the VM would print
    for a command run on it. *)
Definition is_vm_docker_ready (vm_output : string -> string -> option string)
    (user_id workspace_id : string) : M bool :=
  let name := Names.get_user_vm_name user_id (Some workspace_id) false in
  try_except
    (exists_ <- vm_exists name ;;
     if negb exists_ then ret false else
     running <- is_vm_running name ;;
     if negb running then get_vm_status name ;;; ret false else
     cloud_init_status <- run_vm_command vm_output name "cloud-init status" ;;
     match cloud_init_status with
     | PStr out =>
         if negb (py_truthy cloud_init_status) || negb (Py.contains "status: done" out)
         then ret false
         else
           docker_version <- run_vm_command vm_output name "docker --version" ;;
           match docker_version with
           | PStr v => ret (py_truthy docker_version && Py.contains "Docker version" v)
           | _ => ret false
           end
     | _ => ret false
     end)
    (fun _ => ret false).

End Manager.

End Manager.

(* ------------------------------------------------------------------ *)
(** ** Deploy pipeline: [DockerComposeRemoteVMUtils.run_docker_compose_deploy] *)

Module Deploy.

(** [CommandResult] of [docker_log_handler.py]; [deploy_info] is the JSON
    payload, kept as the data it encodes. *)
Inductive deploy_info :=
| NoInfo
| InfoUrls (container_name : string) (urls : list string)   (* {"container_name": ..., "urls": ...} *)
| InfoError.                                                 (* {"error": traceback} *)

Record CommandResult := { success : bool; error : string; info : deploy_info }.

(** Effects the pipeline performs, in order of execution. *)
Inductive stage :=
| SCleanup | SSystemCleanup | SPorts | SComposePath | SFluentd
| SUp (cmd : string) | SFollowLogs | SRouting (toml_path : string) (urls : list string).

Inductive res (A : Type) := ROk (a : A) | RErr (msg : string).
Arguments ROk {A} a.
Arguments RErr {A} msg.

(** Stage-recording exception monad. *)
Definition D (A : Type) := list stage -> res A * list stage.

Definition dret {A} (a : A) : D A := fun l => (ROk a, l).
Definition draise {A} (m : string) : D A := fun l => (RErr m, l).
Definition dbind {A B} (m : D A) (k : A -> D B) : D B :=
  fun l => match m l with (ROk a, l') => k a l' | (RErr e, l') => (RErr e, l') end.
Definition dtry {A} (m : D A) (h : string -> D A) : D A :=
  fun l => match m l with (ROk a, l') => (ROk a, l') | (RErr e, l') => h e l' end.
Definition emit (s : stage) : D unit := fun l => (ROk tt, app l [s]).
Definition of_res {A} (r : res A) : D A := match r with ROk a => dret a | RErr e => draise e end.

Notation "x <-- m ;; k" := (dbind m (fun x => k)) (at level 61, m at next level, right associativity).
Notation "m ;;;; k" := (dbind m (fun _ => k)) (at level 61, right associativity).

(** What the collaborators of the pipeline answer. *)
Record env := {
  set_context : res (string * string);      (* DockerContextManager: (context_name, private_ip) *)
  cleanup_result : res bool;                (* run_docker_compose_cleanup(...).success *)
  system_cleanup_result : res bool;         (* run_system_cleanup().success *)
  services_ports_result : res (Traefik.dict (list Z)); (* _retrieve_external_service_ports *)
  compose_file_result : res string;         (* get_compose_file_path *)
  add_fluentd_result : res bool;            (* FluentdEnabler.add_fluentd_to_compose *)
  run_command_result : string -> CommandResult;  (* run_docker_commands_with_logging *)
  follow_logs_result : res unit;            (* DockerComposeLogHandler.follow_compose_logs *)
  base_url : string;                        (* SUBDOMAIN *)
  base_location : option string             (* TRAFFIC_TOML_LOCATION *)
}.

(** [Path(p).name] *)
Definition path_name (p : string) : string := VM.last_segment p.

(** [generate_unique_name(project_base_path, username)] *)
Definition generate_unique_name (project_base_path username : string) : string :=
  let sanitized_name := Py.replace_char " " "-" (Py.lower (path_name project_base_path)) in
  sanitized_name ++ "-" ++ Names.extract_user_id username.

Section Pipeline.
Variable E : env.

(** [enable_fluentd_logging(compose_file_path, username, workspace)] *)
Definition enable_fluentd_logging : D unit :=
  emit SFluentd ;;;;
  updated <-- of_res (add_fluentd_result E) ;;
  if updated then dret tt else draise "Failed to enable Fluentd logging".

(** [TraefikTomlGenerator().generate_toml(...)] with its file write. *)
Definition publish_routes (service_name private_ip : string) (ports : Traefik.dict (list Z))
    : D (list string) :=
  match base_location E with
  | None => draise "expected str, bytes or os.PathLike object, not NoneType"
  | Some loc =>
      let '(path, urls, _) := Traefik.generate_toml (base_url E) loc service_name private_ip ports in
      emit (SRouting path urls) ;;;; dret urls
  end.

(** [run_docker_compose_deploy(project_path, username, workspace_name, env_file_path)] *)
Definition run_docker_compose_deploy (project_path username workspace_name : string)
    (env_file_path : option string) : D CommandResult :=
  ctx <-- of_res (set_context E) ;;
  let '(context_name, private_ip) := ctx in
  let container_name := generate_unique_name project_path username in
  let env_file_arg := if Py.truthy env_file_path
                      then "--env-file " ++ match env_file_path with Some e => e | None => "" end
                      else "" in
  dtry (emit SCleanup ;;;; _ <-- of_res (cleanup_result E) ;; dret tt) (fun _ => dret tt) ;;;;
  dtry (emit SSystemCleanup ;;;; _ <-- of_res (system_cleanup_result E) ;; dret tt) (fun _ => dret tt) ;;;;
  dtry
    (emit SPorts ;;;;
     services_ports <-- of_res (services_ports_result E) ;;
     emit SComposePath ;;;;
     compose_file_path <-- of_res (compose_file_result E) ;;
     enable_fluentd_logging ;;;;
     let deploy_command := Compose.generate_deploy_command compose_file_path container_name
                             (Some env_file_arg) (Some context_name) in
     emit (SUp deploy_command) ;;;;
     let run_result := run_command_result E deploy_command in
     if success run_result then
       emit SFollowLogs ;;;;
       of_res (follow_logs_result E) ;;;;
       let service_name := generate_unique_name project_path username in
       final_urls <-- publish_routes service_name private_ip services_ports ;;
       dret {| success := success run_result; error := error run_result;
               info := InfoUrls container_name final_urls |}
     else dret run_result)
    (fun e => dret {| success := false; error := e; info := InfoError |}).

End Pipeline.

Definition ran_up (l : list stage) : bool :=
  existsb (fun s => match s with SUp _ => true | _ => false end) l.
Definition ran_routing (l : list stage) : bool :=
  existsb (fun s => match s with SRouting _ _ => true | _ => false end) l.

End Deploy.

(* ------------------------------------------------------------------ *)
(** ** Concrete inputs *)

Module Examples.
Import VM.

(** A hash function returning the MD5 digest of ["vm-alice"]. *)
Definition md5_vm_alice (_ : string) : string := "4a95ed02472f60912991affbf372d6db".

Definition cr0 : creator :=
  {| resource_group := "rg"; vnet_name := "vnet"; subnet_name := "default" |}.

Definition alice_vm : vm_resource :=
  {| vm_id := "/subscriptions/s/resourceGroups/rg/providers/Microsoft.Compute/virtualMachines/vm-alice";
     vm_location := "eastus"; vm_size := "Standard_B2ats_v2"; vm_priority := "Spot";
     vm_nic_ids := ["/subscriptions/s/resourceGroups/rg/providers/Microsoft.Network/networkInterfaces/vm-alice-nic"] |}.

(** A cloud holding [vm-alice], running, with private IP 10.0.0.173. *)
Definition cloud_alice_running : cloud :=
  {| vm_get := fun n => if String.eqb n "vm-alice" then ApiOk alice_vm else ApiNotFound;
     vm_instance_view := fun n => if String.eqb n "vm-alice"
                                  then ApiOk ["ProvisioningState/succeeded"; "PowerState/running"]
                                  else ApiNotFound;
     nic_get := fun n => if String.eqb n "vm-alice-nic" then ApiOk [PStr "10.0.0.173"] else ApiNotFound |}.

(** A cloud without any VM, and a cloud whose API is failing. *)
Definition cloud_empty : cloud :=
  {| vm_get := fun _ => ApiNotFound; vm_instance_view := fun _ => ApiNotFound;
     nic_get := fun _ => ApiNotFound |}.
Definition cloud_down : cloud :=
  {| vm_get := fun _ => ApiError "503 Service Unavailable";
     vm_instance_view := fun _ => ApiError "503 Service Unavailable";
     nic_get := fun _ => ApiError "503 Service Unavailable" |}.

(** A provisioner whose operations all succeed. *)
Definition pv0 : Manager.provisioner :=
  {| Manager.start_op := fun _ c => (true, c);
     Manager.delete_op := fun _ c => c;
     Manager.create_op := fun _ _ _ c => (Ok PNone, c);
     Manager.config_valid := true;
     Manager.admin_username := "azureuser" |}.

Definition state_of (c : cloud) : st := {| cloud_of := c; calls := []; clock := 0; db_ok := true |}.

(** What a ready VM prints. *)
Definition ready_vm_output (_ script : string) : option string :=
  if String.eqb script "cloud-init status" then Some "status: done"
  else if String.eqb script "docker --version" then Some "Docker version 27.0.3, build 7d4bcd8"
  else None.

(** The collaborators of a deploy of ["alice"]'s workspace ["blog"] on
    [vm-alice], with [fluentd] the answer of [add_fluentd_to_compose]. *)
Definition deploy_env (fluentd : Deploy.res bool) : Deploy.env :=
  {| Deploy.set_context := Deploy.ROk ("ws-alice-blog", "10.0.0.173");
     Deploy.cleanup_result := Deploy.ROk true;
     Deploy.system_cleanup_result := Deploy.ROk true;
     Deploy.services_ports_result := Deploy.ROk [("web", [8080%Z])];
     Deploy.compose_file_result := Deploy.ROk "/workspaces/alice/blog/docker-compose.yml";
     Deploy.add_fluentd_result := fluentd;
     Deploy.run_command_result := fun _ => {| Deploy.success := true; Deploy.error := "";
                                             Deploy.info := Deploy.NoInfo |};
     Deploy.follow_logs_result := Deploy.ROk tt;
     Deploy.base_url := "example.com";
     Deploy.base_location := Some "/etc/traefik/dynamic" |}.

End Examples.

(* ------------------------------------------------------------------ *)
(** ** More string primitives *)

Module Str.

(** [s.split(c)] for a one-character separator [c]. *)
Fixpoint split_acc (c : ascii) (acc s : string) : list string :=
  match s with
  | EmptyString => [acc]
  | String x s' => if Ascii.eqb x c then acc :: split_acc c EmptyString s'
                   else split_acc c (acc ++ String x EmptyString) s'
  end.
Definition split (c : ascii) (s : string) : list string := split_acc c EmptyString s.

(** [s.split(c, 1)]: the part before the first [c] and the rest. *)
Fixpoint split_at_first (c : ascii) (s : string) : option (string * string) :=
  match s with
  | EmptyString => None
  | String x s' =>
      if Ascii.eqb x c then Some (EmptyString, s')
      else match split_at_first c s' with
           | Some (a, b) => Some (String x a, b)
           | None => None
           end
  end.
Definition split_once (c : ascii) (s : string) : list string :=
  match split_at_first c s with Some (a, b) => [a; b] | None => [s] end.

(** [s[n:]] *)
Fixpoint drop (n : nat) (s : string) : string :=
  match n, s with
  | O, _ => s
  | _, EmptyString => EmptyString
  | S n', String _ s' => drop n' s'
  end.

(** [s.lstrip(c)] for one character [c]. *)
Fixpoint lstrip (c : ascii) (s : string) : string :=
  match s with
  | String x s' => if Ascii.eqb x c then lstrip c s' else s
  | EmptyString => EmptyString
  end.

(** [s.replace(old, new, 1)]: the leftmost occurrence of [old] is replaced
    (an empty [old] occurs at position 0). *)
Fixpoint replace1 (old new s : string) : string :=
  if String.prefix old s then new ++ drop (String.length old) s
  else match s with
       | EmptyString => EmptyString
       | String c s' => String c (replace1 old new s')
       end.

(** [c.isupper()] on an ASCII character. *)
Definition is_upper (c : ascii) : bool :=
  let n := nat_of_ascii c in Nat.leb 65 n && Nat.leb n 90.

End Str.

(* ------------------------------------------------------------------ *)
(** ** [pathlib.PurePosixPath] *)

Module PyPath.

(** [PurePosixPath._flavour.splitroot]: the root ([""], ["/"] or ["//"]) and
    the path relative to it. *)
Definition splitroot (p : string) : string * string :=
  if negb (String.prefix "/" p) then (EmptyString, p)
  else if negb (String.prefix "//" p) || String.prefix "///" p then ("/", Str.lstrip "/" p)
  else ("//", Str.drop 2 p).

(** [x and x != '.'] *)
Definition good_part (x : string) : bool :=
  negb (String.eqb x EmptyString) && negb (String.eqb x ".").

(** The parts after the root: [[x for x in rel.split('/') if x and x != '.']] *)
Definition rel_parts (p : string) : list string :=
  filter good_part (Str.split "/" (snd (splitroot p))).

(** [Path(p).parts] *)
Definition parts (p : string) : list string :=
  let root := fst (splitroot p) in
  app (if String.eqb root EmptyString then [] else [root]) (rel_parts p).

(** [Path(p).name] *)
Definition name (p : string) : string := last (rel_parts p) EmptyString.

End PyPath.

(* ------------------------------------------------------------------ *)
(** ** More of [helper_functions.py] *)

Module Helpers.

(** Outcome of [extract_username_and_workspace_from_path]. *)
Inductive path_result :=
| PathOk (username workspace_name : string)
| PathNameError (name : string).   (* NameError: name '...' is not defined *)

(** [extract_username_and_workspace_from_path(project_path)]: the error
    message of the [ValueError] formats [str(e)] with [e] unbound, so building
    it raises [NameError] first. *)
Definition extract_username_and_workspace_from_path (project_path : string) : path_result :=
  let path_parts := PyPath.parts project_path in
  let n := List.length path_parts in
  if Nat.leb 2 n
  then PathOk (nth (n - 2) path_parts EmptyString) (nth (n - 1) path_parts EmptyString)
  else PathNameError "e".

(** [generate_collection_name(project_base_path, user_id)] *)
Definition generate_collection_name (project_base_path user_id : string) : string :=
  let project_name := PyPath.name project_base_path in
  let sanitized_name := Py.replace_char " " "-" (Py.lower project_name) in
  let user_id := Names.extract_user_id user_id in
  let collection_name := sanitized_name ++ "_" ++ user_id in
  Py.take 60 (Py.lower collection_name).

(** [DockerComposeRemoteVMUtils.get_mapped_project_path(project_path)] with
    [BASE_VOLUME_DIR_MAP] set to [env] ([None]: unset, read as [""]). The
    [dict([...])] of a one-element split raises [ValueError]. *)
Definition get_mapped_project_path (env : option string) (project_path : string)
    : VM.outcome string :=
  let raw := match env with Some v => v | None => EmptyString end in
  match Str.split_once ":" raw with
  | [base_path; volume_path] =>
      if String.prefix base_path project_path
      then VM.Ok (Str.replace1 base_path volume_path project_path)
      else VM.Ok project_path
  | _ => VM.Exc (VM.ValueError
                   "dictionary update sequence element #0 has length 1; 2 is required")
  end.

End Helpers.

(* ------------------------------------------------------------------ *)
(** ** More of [SpotVMManager] *)

Module VMOps.
Import VM Manager.

(** [str(e)] *)
Definition exn_message (e : exn) : string :=
  match e with
  | ResourceNotFoundError => "ResourceNotFoundError"
  | CloudError m => m
  | AttributeError n => "object has no attribute '" ++ n ++ "'"
  | TypeError m => m
  | IndexError => "list index out of range"
  | ValueError m => m
  | VMNotFoundException => "VMNotFoundException"
  end.

(** Lookup of a key in the items of a dict: the first match. *)
Definition lookup (kvs : list (string * pyval)) (key : string) : option pyval :=
  match find (fun kv => String.eqb (fst kv) key) kvs with
  | Some kv => Some (snd kv)
  | None => None
  end.

(** [d.get(key, default)]; a non-dict has no [get]. *)
Definition dict_get (d : pyval) (key : string) (default : pyval) : M pyval :=
  match d with
  | PDict kvs => match lookup kvs key with Some v => ret v | None => ret default end
  | _ => raise (AttributeError "get")
  end.

(** [v == s] for a string constant [s]. *)
Definition py_eq_str (v : pyval) (s : string) : bool :=
  match v with PStr x => String.eqb x s | _ => false end.

(** [SpotVMCreator.clear_workspace_vm_config], a synchronous method.
    [WorkspaceRepository.update_workspace] is a coroutine function, so it
    takes the [run_until_complete] branch: called while an event loop is
    running ([in_running_loop]), that raises [RuntimeError] before the update
    is made, and the handler answers [False]; otherwise the update
    [vm_config = None] is made and its answer returned. *)
Definition clear_workspace_vm_config (in_running_loop : bool) (username workspace_name : string)
    : M pyval :=
  if in_running_loop then ret (PBool false)
  else
    record (CDbUpdate username workspace_name) ;;;
    s <- get_state ;;
    ret (PBool (db_ok s)).

(** The calls that only read a VM, its instance view or its NIC, or start it. *)
Definition read_or_start (c : call) : bool :=
  match c with
  | CGetVM _ | CInstanceView _ | CGetNic _ | CStart _ => true
  | _ => false
  end.

Section Ops.
Variable cr : creator.
Variable pv : provisioner.
(** [virtual_machines.begin_deallocate(...).result()]: whether it succeeded,
    and the cloud after it. *)
Variable stop_op : string -> cloud -> bool * cloud.
(** The part of [SpotVMCreator.delete_spot_vm] that can fail:
    [virtual_machines.get] and [virtual_machines.begin_delete(...).wait()]
    either succeed or raise; the deletions of the OS disk and of the NIC
    that follow catch their own errors. The answer and the cloud after it. *)
Variable delete_result : string -> cloud -> outcome unit * cloud.

(** [SpotVMCreator.delete_spot_vm]: its handler logs the error and
    re-raises it. *)
Definition delete_spot_vm_raising (name : string) : M unit :=
  record (CDelete name) ;;;
  s <- get_state ;;
  let '(r, c) := delete_result name (cloud_of s) in
  set_cloud c ;;;
  match r with Ok _ => ret tt | Exc e => raise e end.

(** [SpotVMCreator.stop_vm] *)
Definition stop_vm (name : string) : M bool :=
  s <- get_state ;;
  let '(ok, c) := stop_op name (cloud_of s) in
  set_cloud c ;;; ret ok.

(** [SpotVMManager.get_user_vm_info] *)
Definition get_user_vm_info (user_id : string) (workspace_id : option string) : M pyval :=
  try_except
    (let vm_name := Names.get_user_vm_name user_id workspace_id false in
     vm_details <- get_vm_details cr vm_name ;;
     if negb (py_truthy vm_details) then
       ret (PDict [("allocated", PBool false); ("vm_name", PStr vm_name);
                   ("status", PStr "not_found")])
     else
       is_running <- is_vm_running vm_name ;;
       status <- dict_get vm_details "status" (PStr "unknown") ;;
       private_ip <- dict_get vm_details "private_ip" PNone ;;
       vm_size <- dict_get vm_details "vm_size" PNone ;;
       location <- dict_get vm_details "location" PNone ;;
       ret (PDict [("allocated", PBool true); ("vm_name", PStr vm_name);
                   ("vm_details", vm_details); ("is_running", PBool is_running);
                   ("status", status); ("private_ip", private_ip);
                   ("vm_size", vm_size); ("location", location)]))
    (fun e => ret (PDict [("allocated", PBool false); ("error", PStr (exn_message e));
                          ("status", PStr "error")])).

(** The dict returned by the handler of [monitor_spot_vm_health]. *)
Definition monitor_error (msg : string) : pyval :=
  PDict [("status", PStr "error"); ("error", PStr msg); ("action_required", PStr "investigate")].

(** [SpotVMManager.monitor_spot_vm_health]. [vm_info['vm_name']] on a dict
    without that key raises [KeyError('vm_name')], whose handler answers
    [monitor_error "'vm_name'"]; [start_vm] of a non-string name fails in the
    SDK call and answers [False]. *)
Definition monitor_spot_vm_health (user_id : string) (workspace_id : option string) : M pyval :=
  try_except
    (vm_info <- get_user_vm_info user_id workspace_id ;;
     allocated <- dict_get vm_info "allocated" PNone ;;
     if negb (py_truthy allocated) then
       ret (PDict [("status", PStr "not_allocated"); ("action_required", PStr "none")])
     else
       match vm_info with
       | PDict kvs =>
           match lookup kvs "vm_name" with
           | None => ret (monitor_error "'vm_name'")
           | Some vm_name =>
               current_status <- dict_get vm_info "status" PNone ;;
               if py_eq_str current_status "deallocated" || py_eq_str current_status "stopped" then
                 started <- (match vm_name with PStr n => start_vm pv n | _ => ret false end) ;;
                 if started then
                   info <- get_user_vm_info user_id workspace_id ;;
                   ret (PDict [("status", PStr "recovered"); ("action_taken", PStr "restarted");
                               ("vm_info", info)])
                 else
                   ret (PDict [("status", PStr "restart_failed"); ("action_required", PStr "recreate");
                               ("vm_info", vm_info)])
               else if py_eq_str current_status "running" then
                 ret (PDict [("status", PStr "healthy"); ("action_required", PStr "none");
                             ("vm_info", vm_info)])
               else
                 ret (PDict [("status", PStr "unknown"); ("current_status", current_status);
                             ("action_required", PStr "investigate"); ("vm_info", vm_info)])
           end
       | _ => raise (TypeError "object is not subscriptable")
       end)
    (fun e => ret (monitor_error (exn_message e))).

(** [SpotVMManager.deallocate_user_vm] *)
Definition deallocate_user_vm (user_id : string) (workspace_id : option string) : M bool :=
  try_except
    (let vm_name := Names.get_user_vm_name user_id workspace_id false in
     exists_ <- vm_exists vm_name ;;
     if negb exists_ then ret true else
     success <- stop_vm vm_name ;;
     ret success)
    (fun _ => ret false).

(** [SpotVMManager.delete_user_vm], a coroutine: its body runs inside the
    event loop ([asyncio.run] of [delete_user_vm_sync]). *)
Definition delete_user_vm (user_id : string) (workspace_id : option string) : M bool :=
  try_except
    (let vm_name := Names.get_user_vm_name user_id workspace_id false in
     exists_ <- vm_exists vm_name ;;
     if negb exists_ then ret true else
     delete_spot_vm_raising vm_name ;;;
     (match workspace_id with
      | Some ws =>
          if Py.truthy workspace_id
          then r <- clear_workspace_vm_config true user_id ws ;; py_await r ;;; ret tt
          else ret tt
      | None => ret tt
      end) ;;;
     ret true)
    (fun _ => ret false).

End Ops.

(** One entry of [list_all_user_vms]. *)
Record user_vm := {
  uv_user_id : string;
  uv_workspace_id : option string;
  uv_vm_details : pyval;
  uv_is_running : bool
}.

(** The loop of [SpotVMManager.list_all_user_vms] over the VMs [all_vms]
    returned by [list_user_vms(user_prefix="vm-")]; [None] when the loop
    raises ([get] on a non-dict, [startswith] on a non-string). *)
Fixpoint user_vms_loop (all_vms : list pyval) : option (list user_vm) :=
  match all_vms with
  | [] => Some []
  | vm :: rest =>
      match vm with
      | PDict kvs =>
          let vm_name := match lookup kvs "vm_name" with Some v => v | None => PStr EmptyString end in
          match vm_name with
          | PStr n =>
              if String.prefix "vm-" n then
                let parts := Str.split "-" (Str.drop 3 n) in
                let user_id := nth 0 parts EmptyString in
                let workspace_id := if Nat.ltb 1 (List.length parts) then Some (nth 1 parts EmptyString)
                                    else None in
                let is_running := match lookup kvs "status" with
                                  | Some v => py_eq_str v "running"
                                  | None => false
                                  end in
                match user_vms_loop rest with
                | Some l => Some ({| uv_user_id := user_id; uv_workspace_id := workspace_id;
                                     uv_vm_details := vm; uv_is_running := is_running |} :: l)
                | None => None
                end
              else user_vms_loop rest
          | _ => None
          end
      | _ => None
      end
  end.

(** [list_all_user_vms]: the handler answers [[]]. *)
Definition list_all_user_vms_of (all_vms : list pyval) : list user_vm :=
  match user_vms_loop all_vms with Some l => l | None => [] end.

(** Neither a creation nor a deletion of a VM. *)
Definition not_create_delete (c : call) : bool :=
  match c with CCreate _ | CDelete _ => false | _ => true end.

End VMOps.

(* ------------------------------------------------------------------ *)
(** ** Shape of a routing configuration *)

Module TraefikShape.
Import Traefik.

(** The loop state of [generate_toml] for [base_url], [private_ip] and the
    ports [ports]: routers and services share their keys, with no duplicate;
    each router serves its own key under the host [key.base_url]; each
    service balances to one port of [ports] on [private_ip]; the URLs listed
    are exactly the hosts of the routers. *)
Definition shape (base_url private_ip : string) (ports : list Z) (g : gen_state) : Prop :=
  map fst (g_routers g) = map fst (g_services g)
  /\ NoDup (map fst (g_routers g))
  /\ (forall k r, In (k, r) (g_routers g) ->
        r_service r = k /\ rule r = "Host(`" ++ (k ++ "." ++ base_url) ++ "`)")
  /\ (forall k sv, In (k, sv) (g_services g) ->
        exists port, In port ports /\ servers sv = ["http://" ++ private_ip ++ ":" ++ Py.str_of_int port])
  /\ (forall u, In u (g_final_urls g) <-> exists k, In k (map fst (g_routers g)) /\ u = k ++ "." ++ base_url).

End TraefikShape.

(* ------------------------------------------------------------------ *)
(** ** [DockerComposeRemoteVMUtils.run_docker_compose_cleanup] *)

Module Cleanup.

(** What [run_docker_commands_with_logging(cmd, ...)] does for one command. *)
Inductive cmd_answer :=
| CmdResult (success : bool) (error : string)  (* a [CommandResult] *)
| CmdNone                                      (* [None] *)
| CmdRaises (msg : string).                    (* an exception *)

(** [CommandResult(success, output, error, deploy_info)] *)
Record CmdResult4 := {
  c_success : bool;
  c_output : option string;
  c_error : option string;
  c_deploy_info : option string
}.

(** A double-quote character. *)
Definition dq : string := String (Ascii.ascii_of_nat 34) EmptyString.

(** The three commands, for [container_name] and the context obtained
    ([None] when no username and workspace were given). *)
Definition cleanup_commands (container_name : string) (context_name : option string) : list string :=
  let ctx := match context_name with Some c => c | None => EmptyString end in
  if Py.truthy context_name then
    ["docker --context " ++ ctx ++ " compose -p " ++ container_name ++ " down --volumes --remove-orphans";
     "docker --context " ++ ctx ++ " images -q --filter " ++ dq ++ "label=com.docker.compose.project=" ++ container_name
       ++ dq ++ " | xargs -r docker --context " ++ ctx ++ " rmi -f 2>/dev/null || true";
     "docker --context " ++ ctx ++ " image prune -f"]
  else
    ["docker compose -p " ++ container_name ++ " down --volumes --remove-orphans";
     "docker images -q --filter " ++ dq ++ "label=com.docker.compose.project=" ++ container_name
       ++ dq ++ " | xargs -r docker rmi -f 2>/dev/null || true";
     "docker image prune -f"].

(** [for cmd in cleanup_commands: ...]: the results appended, in order. *)
Fixpoint collect (run : string -> cmd_answer) (cmds : list string) : list (bool * string) :=
  match cmds with
  | [] => []
  | cmd :: rest =>
      match run cmd with
      | CmdResult ok err => (ok, err) :: collect run rest
      | CmdNone | CmdRaises _ => collect run rest
      end
  end.

(** The body of [run_docker_compose_cleanup] after the context is set. *)
Definition run_docker_compose_cleanup (run : string -> cmd_answer) (container_name : string)
    (context_name : option string) : CmdResult4 :=
  let results := collect run (cleanup_commands container_name context_name) in
  match results with
  | (true, _) :: _ =>
      {| c_success := true; c_output := Some "Selective cleanup completed successfully";
         c_error := None; c_deploy_info := Some "Project-specific cleanup completed" |}
  | _ =>
      {| c_success := true; c_output := Some "No existing containers found for this project";
         c_error := None; c_deploy_info := Some "No cleanup needed" |}
  end.

End Cleanup.

(* ------------------------------------------------------------------ *)
(** ** Inputs used by the examples of the properties *)

Module ExtraExamples.
Import Cleanup.

(** A runner for which the [down] command of project [blog-alice] answers
    [None] and every other command succeeds. *)
Definition down_missing_run (cmd : string) : cmd_answer :=
  if String.eqb cmd (nth 0 (cleanup_commands "blog-alice" None) EmptyString) then CmdNone
  else CmdResult true EmptyString.

End ExtraExamples.
(* ================================================================== *)
(** * Properties *)

Module NameFacts.
Import Names.

Lemma all_chars_app (p : ascii -> bool) (a b : string) :
  all_chars p (a ++ b) = all_chars p a && all_chars p b.
Proof.
  induction a as [|c a IH]; simpl; [reflexivity|].
  rewrite IH. apply andb_assoc.
Qed.

Lemma all_chars_take (p : ascii -> bool) (n : nat) (s : string) :
  all_chars p s = true -> all_chars p (Py.take n s) = true.
Proof.
  revert s; induction n as [|n IH]; intros [|c s] H; simpl in *; try reflexivity.
  apply andb_prop in H as [H1 H2]. now rewrite H1, IH.
Qed.

Lemma length_take (n : nat) (s : string) : String.length (Py.take n s) <= n.
Proof.
  revert s; induction n as [|n IH]; intros [|c s]; simpl; try lia.
  specialize (IH s). lia.
Qed.

(** Every character kept by [get_user_vm_name], once lower-cased, is in [[a-z0-9-]]. *)
Lemma vm_char_lower_safe (c : ascii) :
  vm_char c = true -> safe_char (Py.lower_char c) = true.
Proof.
  destruct c as [[] [] [] [] [] [] [] []]; vm_compute; congruence.
Qed.

Lemma lower_filter_safe (s : string) :
  all_chars safe_char (Py.lower (Py.filter_str vm_char s)) = true.
Proof.
  induction s as [|c s IH]; simpl; [reflexivity|].
  destruct (vm_char c) eqn:E; simpl; [|exact IH].
  rewrite (vm_char_lower_safe c E). exact IH.
Qed.

Lemma filter_all (p : ascii -> bool) (s : string) : all_chars p (Py.filter_str p s) = true.
Proof.
  induction s as [|c s IH]; simpl; [reflexivity|].
  destruct (p c) eqn:E; simpl; [rewrite E|]; exact IH.
Qed.

End NameFacts.

Module Trace.
Import VM Manager.

Section Log.
Variable P : call -> bool.

Lemma logs_ret {A} (a : A) : logs P (ret a).
Proof. intros s. exists []. split; reflexivity. Qed.

Lemma logs_raise {A} (e : exn) : logs P (@raise A e).
Proof. intros s. exists []. split; reflexivity. Qed.

Lemma logs_record (c : call) : P c = true -> logs P (record c).
Proof. intros H s. exists [c]. simpl. rewrite H. split; reflexivity. Qed.

Lemma logs_set_cloud (c : cloud) : logs P (set_cloud c).
Proof. intros s. exists []. split; reflexivity. Qed.

Lemma logs_get_state : logs P get_state.
Proof. intros s. exists []. split; reflexivity. Qed.

Lemma logs_bind {A B} (m : M A) (k : A -> M B) :
  logs P m -> (forall a, logs P (k a)) -> logs P (bind m k).
Proof.
  intros Hm Hk s. unfold bind. destruct (Hm s) as [n1 [E1 F1]].
  destruct (m s) as [[a|e] s'] eqn:Em; simpl in *.
  - destruct (Hk a s') as [n2 [E2 F2]]. exists (app n2 n1).
    rewrite E2, E1, app_assoc, forallb_app, F1, F2. split; reflexivity.
  - exists n1. split; assumption.
Qed.

Lemma logs_try {A} (m : M A) (h : exn -> M A) :
  logs P m -> (forall e, logs P (h e)) -> logs P (try_except m h).
Proof.
  intros Hm Hh s. unfold try_except. destruct (Hm s) as [n1 [E1 F1]].
  destruct (m s) as [[a|e] s'] eqn:Em; simpl in *.
  - exists n1. split; assumption.
  - destruct (Hh e s') as [n2 [E2 F2]]. exists (app n2 n1).
    rewrite E2, E1, app_assoc, forallb_app, F1, F2. split; reflexivity.
Qed.

Lemma logs_api {A} (c : call) (f : cloud -> api_result A) : P c = true -> logs P (api c f).
Proof.
  intros H. unfold api. apply logs_bind; [apply logs_record; exact H|intros _].
  apply logs_bind; [apply logs_get_state|intros s].
  destruct (f (cloud_of s)); [apply logs_ret|apply logs_raise|apply logs_raise].
Qed.

Lemma logs_sleep (secs : Z) : P (CSleep secs) = true -> logs P (sleep secs).
Proof. intros H s. exists [CSleep secs]. simpl. rewrite H. split; reflexivity. Qed.

Lemma logs_index {A} (l : list A) (i : nat) : logs P (index l i).
Proof. unfold index. destruct (nth_error l i); [apply logs_ret|apply logs_raise]. Qed.

Lemma logs_getattr (v : pyval) (name : string) : logs P (getattr v name).
Proof.
  unfold getattr. destruct v; try apply logs_raise.
  destruct (find _ _); [apply logs_ret|apply logs_raise].
Qed.

Lemma logs_py_await (v : pyval) : logs P (py_await v).
Proof. unfold py_await. destruct v; try apply logs_raise. apply logs_ret. Qed.

Lemma logs_from_api {A} (c : call) (f : cloud -> api_result A) : logs_from P c (api c f).
Proof.
  intros s. unfold api, bind, record, get_state. cbn [cloud_of calls].
  destruct (f (cloud_of s)); exists []; split; reflexivity.
Qed.

Lemma logs_from_bind {A B} (c : call) (m : M A) (k : A -> M B) :
  logs_from P c m -> (forall a, logs P (k a)) -> logs_from P c (bind m k).
Proof.
  intros Hm Hk s. unfold bind. destruct (Hm s) as [n1 [E1 F1]].
  destruct (m s) as [[a|e] s'] eqn:Em; simpl in *.
  - destruct (Hk a s') as [n2 [E2 F2]]. exists (app n2 n1).
    rewrite E2, E1, app_assoc, forallb_app, F1, F2. split; reflexivity.
  - exists n1. split; assumption.
Qed.

Lemma logs_from_try {A} (c : call) (m : M A) (h : exn -> M A) :
  logs_from P c m -> (forall e, logs P (h e)) -> logs_from P c (try_except m h).
Proof.
  intros Hm Hh s. unfold try_except. destruct (Hm s) as [n1 [E1 F1]].
  destruct (m s) as [[a|e] s'] eqn:Em; simpl in *.
  - exists n1. split; assumption.
  - destruct (Hh e s') as [n2 [E2 F2]]. exists (app n2 n1).
    rewrite E2, E1, app_assoc, forallb_app, F1, F2. split; reflexivity.
Qed.

End Log.

Ltac logs_step :=
  first
  [ apply logs_ret | apply logs_raise | apply logs_set_cloud | apply logs_get_state
  | apply logs_index | apply logs_getattr | apply logs_py_await
  | apply logs_record; cbn; first [reflexivity | apply String.eqb_refl]
  | apply logs_sleep; reflexivity
  | apply logs_api; cbn; first [reflexivity | apply String.eqb_refl]
  | apply logs_bind; [|intros ?]
  | apply logs_try; [|intros ?]
  | match goal with |- logs _ (match ?x with _ => _ end) => destruct x end
  | match goal with |- logs _ (fun s => match ?x with _ => _ end s) => destruct x end ].

Ltac logs_tac := repeat logs_step.

Section Vm.
Variable cr : creator.
Variable pv : provisioner.
Variable name : string.

Lemma logs_get_vm_status : logs (about_vm name) (get_vm_status name).
Proof. unfold get_vm_status. logs_tac. Qed.

Lemma logs_get_vm_details : logs (about_vm name) (get_vm_details cr name).
Proof. unfold get_vm_details. logs_tac; apply logs_get_vm_status. Qed.

Lemma logs_start_vm : logs (about_vm name) (start_vm pv name).
Proof. unfold start_vm. logs_tac. Qed.

Lemma logs_delete_spot_vm : logs (about_vm name) (delete_spot_vm pv name).
Proof. unfold delete_spot_vm. logs_tac. Qed.

Lemma logs_create_spot_vm (size admin : string) : logs (about_vm name) (create_spot_vm pv name size admin).
Proof. unfold create_spot_vm. logs_tac. Qed.

Lemma logs_validate : logs (about_vm name) (validate pv).
Proof. unfold validate. logs_tac. Qed.

Lemma logs_is_vm_running : logs (about_vm name) (is_vm_running name).
Proof. unfold is_vm_running. logs_tac; apply logs_get_vm_status. Qed.

Lemma logs_perform_vm_docker_cleanup : logs (about_vm name) (perform_vm_docker_cleanup name).
Proof. unfold perform_vm_docker_cleanup. logs_tac. Qed.

Lemma logs_await_update_if (user : string) (ws : option string) (v : pyval) :
  logs (about_vm name) (await_update_if user ws v).
Proof. unfold await_update_if, update_workspace_table. logs_tac. Qed.

Lemma logs_info_of (v : pyval) : logs (about_vm name) (info_of v).
Proof. unfold info_of. logs_tac. Qed.

End Vm.

Ltac logs_vm_tac :=
  repeat first
    [ apply logs_get_vm_status | apply logs_get_vm_details | apply logs_start_vm
    | apply logs_delete_spot_vm | apply logs_create_spot_vm | apply logs_validate
    | apply logs_is_vm_running | apply logs_perform_vm_docker_cleanup
    | apply logs_await_update_if | apply logs_info_of | logs_step ].

Lemma logs_create_new (pv : provisioner) (name user : string) (ws : option string) (size : string) :
  logs (about_vm name) (create_new pv user ws name size).
Proof. unfold create_new. logs_vm_tac. Qed.


(** The allocation path starts by looking up the tenant's VM. *)
Lemma logs_from_check_user_vm_allocation (cr : creator) (user : string) (ws : option string) :
  let name := Names.get_user_vm_name user ws false in
  logs_from (about_vm name) (CGetVM name) (check_user_vm_allocation cr user ws).
Proof.
  intros name. unfold check_user_vm_allocation, get_vm_details. fold name.
  apply logs_from_try; [|intros e; destruct (exn_is_VMNotFound e); apply logs_ret].
  apply logs_from_bind; [|intros v; destruct (py_truthy v); apply logs_ret].
  apply logs_from_try; [|intros e; destruct e; apply logs_ret].
  apply logs_from_bind; [apply logs_from_api|intros vm].
  logs_vm_tac.
Qed.

Lemma name_alice (ws : option string) : Names.get_user_vm_name "alice" ws false = "vm-alice".
Proof. unfold Names.get_user_vm_name. rewrite andb_false_r. reflexivity. Qed.

End Trace.

Module C4.
Import Names NameFacts.

(** Claim C4 (counterexample): the three derived names are not all bounded by
    64 characters over [[a-z0-9-]]: for tenant ["Alice"] and workspace
    ["blog"] the context name keeps the upper-case ["A"], and a workspace
    named ["my_app"] puts an underscore into the project name; a workspace of
    70 characters makes both the project name and the context name longer
    than 64. *)
Lemma derived_names_not_all_safe :
  generate_context_name_from_user_workspace "Alice" "blog" = "ws-Alice-blog"
  /\ all_chars safe_char (generate_context_name_from_user_workspace "Alice" "blog") = false
  /\ all_chars safe_char (generate_project_name_from_user_workspace "alice" "my_app") = false
  /\ 64 < String.length (generate_project_name_from_user_workspace "alice"
            "aaaaaaaaaaaaaaaaaaaaaaaaaaaaaaaaaaaaaaaaaaaaaaaaaaaaaaaaaaaaaaaaaaaaaa")
  /\ 64 < String.length (generate_context_name_from_user_workspace "alice"
            "aaaaaaaaaaaaaaaaaaaaaaaaaaaaaaaaaaaaaaaaaaaaaaaaaaaaaaaaaaaaaaaaaaaaaa").
Proof. vm_compute. split; [reflexivity|]. split; [reflexivity|].
  split; [reflexivity|]. split; lia. Qed.

(** Claim C4 (amended): for a tenant, workspace and workspace id made of
    ASCII characters, each derived name is a function of its arguments alone;
    the VM name is at most 64 characters, all in [[a-z0-9-]], and the context
    name consists of ASCII letters of either case, digits and ['-'] (it has no
    length bound); the project name has
    neither bound. On non-ASCII input Python's [str.isalnum] keeps non-ASCII
    letters and digits, which this statement does not cover. *)
Theorem derived_names_shape (user workspace : string) (workspace_id : option string)
    (use_workspace : bool)
    (Huser : all_chars is_ascii user = true)
    (Hworkspace : all_chars is_ascii workspace = true)
    (Hworkspace_id : forall w, workspace_id = Some w -> all_chars is_ascii w = true) :
  String.length (get_user_vm_name user workspace_id use_workspace) <= 64
  /\ all_chars safe_char (get_user_vm_name user workspace_id use_workspace) = true
  /\ all_chars (fun c => Py.isalnum c || Ascii.eqb c "-")
       (generate_context_name_from_user_workspace user workspace) = true.
Proof.
  split; [|split].
  - unfold get_user_vm_name. destruct (Py.truthy workspace_id && use_workspace);
      apply length_take.
  - unfold get_user_vm_name. destruct (Py.truthy workspace_id && use_workspace);
      apply all_chars_take; rewrite ?all_chars_app; simpl;
      rewrite ?lower_filter_safe; simpl; rewrite ?all_chars_app, ?lower_filter_safe; reflexivity.
  - unfold generate_context_name_from_user_workspace. rewrite !all_chars_app. simpl.
    assert (F : forall s, all_chars (fun c => Py.isalnum c || Ascii.eqb c "-")
                            (Py.filter_str Py.isalnum s) = true).
    { induction s as [|c s IH]; simpl; [reflexivity|].
      destruct (Py.isalnum c) eqn:E; simpl; [rewrite E|]; exact IH. }
    now rewrite !F.
Qed.

Lemma derived_names_shape_witness :
  (all_chars is_ascii "alice@x.com" = true /\ all_chars is_ascii "blog" = true
   /\ (forall w, Some "blog" = Some w -> all_chars is_ascii w = true))
  /\ (String.length (get_user_vm_name "alice@x.com" (Some "blog") true) <= 64
  /\ all_chars safe_char (get_user_vm_name "alice@x.com" (Some "blog") true) = true
  /\ all_chars (fun c => Py.isalnum c || Ascii.eqb c "-")
       (generate_context_name_from_user_workspace "alice@x.com" "blog") = true).
Proof.
  assert (Hw : forall w, Some "blog" = Some w -> all_chars is_ascii w = true).
  { intros w H. injection H as <-. reflexivity. }
  split.
  - split; [reflexivity|]. split; [reflexivity|]. exact Hw.
  - apply (derived_names_shape "alice@x.com" "blog" (Some "blog") true);
      [reflexivity | reflexivity | exact Hw].
Defined.

End C4.

Module C10.
Import Names.

(** Claim C10: two different tenants, ["a.b@x.com"] and ["ab@y.com"], get the
    same project name and the same context name for every workspace, since
    [extract_user_id] drops dots and everything from ["@"] on. *)
Theorem distinct_tenants_share_names (workspace : string) :
  "a.b@x.com" <> "ab@y.com"
  /\ extract_user_id "a.b@x.com" = extract_user_id "ab@y.com"
  /\ generate_project_name_from_user_workspace "a.b@x.com" workspace
     = generate_project_name_from_user_workspace "ab@y.com" workspace
  /\ generate_context_name_from_user_workspace "a.b@x.com" workspace
     = generate_context_name_from_user_workspace "ab@y.com" workspace.
Proof. split; [discriminate|]. repeat split; reflexivity. Qed.

End C10.

Module C6.
Import Traefik.

(** Claim C6: for [{"web": [8080], "api": [3000, 3001]}], IP ["10.0.0.142"]
    and deployment ["blog"], [generate_toml] emits exactly three routers and
    three services: [blog-web] to port 8080, [blog-api1] to 3000 and
    [blog-api2] to 3001, under any base domain. *)
Theorem generate_toml_blog (base_url base_location : string) :
  generate_toml base_url base_location "blog" "10.0.0.142"
    [("web", [8080%Z]); ("api", [3000%Z; 3001%Z])]
  = (base_location ++ "/blog.toml",
     ["blog-web." ++ base_url; "blog-api1." ++ base_url; "blog-api2." ++ base_url],
     {| routers :=
          [("blog-web", {| rule := "Host(`blog-web." ++ base_url ++ "`)"; r_service := "blog-web";
                           entryPoints := ["websecure"]; middlewares := ["sslheader"];
                           certResolver := "letsencrypt" |});
           ("blog-api1", {| rule := "Host(`blog-api1." ++ base_url ++ "`)"; r_service := "blog-api1";
                            entryPoints := ["websecure"]; middlewares := ["sslheader"];
                            certResolver := "letsencrypt" |});
           ("blog-api2", {| rule := "Host(`blog-api2." ++ base_url ++ "`)"; r_service := "blog-api2";
                            entryPoints := ["websecure"]; middlewares := ["sslheader"];
                            certResolver := "letsencrypt" |})];
        services :=
          [("blog-web", {| servers := ["http://10.0.0.142:8080"] |});
           ("blog-api1", {| servers := ["http://10.0.0.142:3000"] |});
           ("blog-api2", {| servers := ["http://10.0.0.142:3001"] |})] |}).
Proof. reflexivity. Qed.

End C6.

Module C8.
Import Compose.

Lemma prefix_refl (s : string) : String.prefix s s = true.
Proof.
  induction s as [|c s IH]; simpl; [reflexivity|].
  destruct (ascii_dec c c) as [_|n]; [exact IH|congruence].
Qed.

Lemma append_assoc (a b c : string) : a ++ (b ++ c) = (a ++ b) ++ c.
Proof. induction a as [|x a IH]; simpl; [reflexivity|]. now rewrite IH. Qed.

Lemma contains_unfold (sub s : string) :
  Py.contains sub s = if String.prefix sub s then true
                      else match s with EmptyString => false | String _ s' => Py.contains sub s' end.
Proof. destruct s; reflexivity. Qed.

Lemma contains_suffix (sub s : string) : Py.contains sub (s ++ sub) = true.
Proof.
  induction s as [|c s IH].
  - rewrite contains_unfold. simpl. now rewrite prefix_refl.
  - rewrite contains_unfold. simpl (String c s ++ sub).
    destruct (String.prefix sub (String c (s ++ sub))); [reflexivity|exact IH].
Qed.

Lemma join_app (sep : string) (l m : list string) :
  l <> [] -> m <> [] -> Py.join sep (app l m) = Py.join sep l ++ sep ++ Py.join sep m.
Proof.
  intros Hl Hm. induction l as [|p ps IH]; [congruence|].
  destruct ps as [|q qs].
  - simpl. destruct m; [congruence|reflexivity].
  - change (Py.join sep (app (p :: q :: qs) m)) with (p ++ sep ++ Py.join sep (app (q :: qs) m)).
    rewrite IH by discriminate. simpl. now rewrite !append_assoc.
Qed.

Lemma join_up (l : list string) :
  l <> [] -> exists pre, Py.join " " (app l ["up"; "-d"; "--build"]) = pre ++ " up -d --build".
Proof.
  intros Hl. exists (Py.join " " l). rewrite join_app by (assumption || discriminate).
  reflexivity.
Qed.

(** Claim C8: every command line built by [generate_deploy_command] ends in
    [" up -d --build"], so it always carries the build flag. *)
Theorem deploy_command_has_build_flag (compose_file project_name : string)
    (env_file_arg context_name : option string) :
  (exists pre, generate_deploy_command compose_file project_name env_file_arg context_name
               = pre ++ " up -d --build")
  /\ Py.contains "--build" (generate_deploy_command compose_file project_name env_file_arg context_name)
     = true.
Proof.
  assert (E : exists pre, generate_deploy_command compose_file project_name env_file_arg context_name
                          = pre ++ " up -d --build").
  { unfold generate_deploy_command. cbv zeta. rewrite <- !app_assoc.
    change (app ["up"] (app ["-d"] ["--build"])) with ["up"; "-d"; "--build"].
    apply join_up.
    destruct (Py.truthy context_name), (Py.truthy env_file_arg); simpl; discriminate. }
  split; [exact E|].
  destruct E as [pre ->].
  replace (pre ++ " up -d --build") with ((pre ++ " up -d ") ++ "--build")
    by (now rewrite <- append_assoc).
  apply contains_suffix.
Qed.

End C8.

Module C1.
Import StaticIP.
Open Scope Z_scope.

Lemma hex_val_lower (c : ascii) : is_lower_hex c = true -> exists d, hex_val c = Some d.
Proof.
  destruct c as [[] [] [] [] [] [] [] []]; vm_compute; try discriminate; intros _; eauto.
Qed.

Lemma int16_acc_hex (s : string) (acc : Z) :
  Names.all_chars is_lower_hex s = true -> exists z, int16_acc acc s = Some z.
Proof.
  revert acc; induction s as [|c s IH]; intros acc H; simpl in *; [eauto|].
  apply andb_prop in H as [H1 H2].
  destruct (hex_val_lower c H1) as [d ->]. apply IH, H2.
Qed.

Lemma int16_prefix8 (h : string) :
  hexdigest_shape h = true -> exists z, int16 (Py.take 8 h) = Some z.
Proof.
  unfold hexdigest_shape. intros H. apply andb_prop in H as [L A].
  destruct h as [|c h]; [discriminate|].
  apply (int16_acc_hex (Py.take 8 (String c h)) 0).
  now apply NameFacts.all_chars_take.
Qed.

Lemma range_Z_length (lo : Z) (n : nat) : List.length (range_Z lo n) = n.
Proof. revert lo; induction n; intros lo; simpl; [reflexivity|now rewrite IHn]. Qed.

Lemma range_Z_skipn (lo : Z) (k n : nat) :
  skipn k (range_Z lo n) = range_Z (lo + Z.of_nat k) (n - k).
Proof.
  revert lo n; induction k as [|k IH]; intros lo n.
  - simpl. rewrite Z.add_0_r, Nat.sub_0_r. reflexivity.
  - destruct n as [|n]; [reflexivity|]. simpl. rewrite IH. f_equal. lia.
Qed.

Lemma range_Z_nth (lo : Z) (n i : nat) :
  (i < n)%nat -> nth_error (range_Z lo n) i = Some (lo + Z.of_nat i).
Proof.
  revert lo i; induction n as [|n IH]; intros lo i Hi; [lia|].
  destruct i as [|i]; simpl; [f_equal; lia|].
  rewrite IH by lia. f_equal. lia.
Qed.

(** Claim C1: for any VM name and any subnet whose prefix parses and has more
    than 10 host addresses, [_generate_static_ip] returns (as a function of the
    MD5 digest of the name and of the subnet only, hence deterministically)
    one of the host addresses after the first 10: numerically between the
    network address + 11 and the broadcast address - 1. *)
Theorem generate_static_ip_in_host_range (md5_hexdigest : string -> string)
    (Hmd5 : forall s, hexdigest_shape (md5_hexdigest s) = true)
    (vm_name : string) (network : cidr)
    (Hhosts : (10 < List.length (hosts network))%nat) :
  exists a,
    generate_static_ip md5_hexdigest vm_name (Some network) = Some (ip_str a)
    /\ In a (skipn 10 (hosts network))
    /\ network_address network + 11 <= a <= broadcast_address network - 1.
Proof.
  destruct (int16_prefix8 _ (Hmd5 vm_name)) as [h Hh].
  (* with more than 10 hosts the network is neither a /31 nor a /32 *)
  assert (Hrange : hosts network = range_Z (network_address network + 1)
                                     (Z.to_nat (num_addresses network - 2))).
  { unfold hosts in *. destruct (c_prefixlen network =? 32); [simpl in Hhosts; lia|].
    destruct (c_prefixlen network =? 31); [simpl in Hhosts; lia|]. reflexivity. }
  set (net := network_address network) in *.
  set (m := Z.to_nat (num_addresses network - 2)) in *.
  rewrite Hrange in Hhosts. rewrite range_Z_length in Hhosts.
  set (n := (m - 10)%nat).
  assert (Hn : (0 < n)%nat) by (unfold n; lia).
  set (k := Z.to_nat (h mod Z.of_nat n)).
  assert (Hk : (k < n)%nat).
  { unfold k. pose proof (Z.mod_pos_bound h (Z.of_nat n) ltac:(lia)). lia. }
  assert (Hnth : nth_error (skipn 10 (hosts network)) k = Some (net + 1 + 10 + Z.of_nat k)).
  { rewrite Hrange, range_Z_skipn. apply range_Z_nth. unfold n in Hk. lia. }
  exists (net + 1 + 10 + Z.of_nat k). split; [|split].
  - assert (Hlen : List.length (skipn 10 (hosts network)) = n).
    { rewrite Hrange, range_Z_skipn, range_Z_length. reflexivity. }
    unfold generate_static_ip. cbv zeta. rewrite Hh, Hlen.
    destruct (n =? 0)%nat eqn:E; [apply Nat.eqb_eq in E; lia|].
    fold k. rewrite Hnth. reflexivity.
  - eapply nth_error_In. exact Hnth.
  - unfold broadcast_address. fold net.
    assert (Hm : Z.of_nat m = num_addresses network - 2) by (unfold m; lia).
    unfold n in Hk. lia.
Qed.

Lemma generate_static_ip_in_host_range_witness :
  generate_static_ip Examples.md5_vm_alice "vm-alice" (Some (of_octets 10 0 0 0 24)) = Some "10.0.0.173"
  /\ exists a,
    generate_static_ip Examples.md5_vm_alice "vm-alice" (Some (of_octets 10 0 0 0 24)) = Some (ip_str a)
    /\ In a (skipn 10 (hosts (of_octets 10 0 0 0 24)))
    /\ network_address (of_octets 10 0 0 0 24) + 11 <= a
       <= broadcast_address (of_octets 10 0 0 0 24) - 1.
Proof.
  split; [vm_compute; reflexivity|].
  apply (generate_static_ip_in_host_range Examples.md5_vm_alice (fun _ => eq_refl) "vm-alice"
           (of_octets 10 0 0 0 24)).
  vm_compute. lia.
Defined.

End C1.

Module C2.
Import VM Manager Examples.

(** Claim C2 (code bug): when the tenant's VM exists and is running and
    [force_recreate] is false, [allocate_or_reuse_vm] makes no create, start
    or delete call and leaves the cloud unchanged, but it returns no
    [VMInfoResult]: with a workspace it raises [TypeError] (it awaits the
    boolean returned by the synchronous [update_workspace_table]); without
    one it raises [AttributeError] reading [private_ip] off the details
    dictionary. *)
Theorem reuse_running_vm_raises (cr : creator) (pv : provisioner) (user : string)
    (ws : option string) (s : st) (vm : vm_resource) (statuses : list string)
    (nic_id : string) (nics : list string) (ip : pyval) (ips : list pyval) :
  vm_get (cloud_of s) (Names.get_user_vm_name user ws false) = ApiOk vm ->
  vm_instance_view (cloud_of s) (Names.get_user_vm_name user ws false) = ApiOk statuses ->
  find (fun code => String.prefix "PowerState/" code) statuses = Some "PowerState/running" ->
  vm_nic_ids vm = nic_id :: nics ->
  nic_get (cloud_of s) (last_segment nic_id) = ApiOk (ip :: ips) ->
  let '(r, s') := allocate_or_reuse_vm cr pv user ws None None false s in
  r = Exc (if Py.truthy ws then TypeError "object can't be used in 'await' expression"
           else AttributeError "private_ip")
  /\ cloud_of s' = cloud_of s
  /\ exists new, calls s' = app new (calls s)
                 /\ forallb (fun c => negb (is_provisioning c)) new = true.
Proof.
  intros Hget Hview Hpow Hnics Hnic.
  cbv [allocate_or_reuse_vm check_user_vm_allocation get_vm_details get_vm_status
       is_vm_running try_except bind api record get_state ret raise index
       await_update_if update_workspace_table py_await perform_vm_docker_cleanup
       info_of getattr].
  cbn [cloud_of calls clock db_ok].
  set (name := Names.get_user_vm_name user ws false) in *. clearbody name.
  repeat (first [rewrite Hget | rewrite Hview | rewrite Hpow | rewrite Hnics | rewrite Hnic];
          simpl).
  destruct ws as [w|]; [destruct (Py.truthy (Some w)) eqn:Ht|]; simpl.
  - split; [reflexivity|split; [reflexivity|]].
    exists [CDbUpdate user w; CInstanceView name; CGetNic (last_segment nic_id);
            CInstanceView name; CGetVM name].
    split; reflexivity.
  - split; [reflexivity|split; [reflexivity|]].
    exists [CDockerCleanup name; CInstanceView name; CGetNic (last_segment nic_id);
            CInstanceView name; CGetVM name].
    split; reflexivity.
  - split; [reflexivity|split; [reflexivity|]].
    exists [CDockerCleanup name; CInstanceView name; CGetNic (last_segment nic_id);
            CInstanceView name; CGetVM name].
    split; reflexivity.
Qed.

(** The failing input: tenant ["alice"], workspace ["blog"], [vm-alice]
    running with private IP 10.0.0.173, [force_recreate] false. *)
Lemma reuse_running_vm_raises_witness :
  let '(r, s') := allocate_or_reuse_vm cr0 pv0 "alice" (Some "blog") None None false
                    (state_of cloud_alice_running) in
  r = Exc (if Py.truthy (Some "blog") then TypeError "object can't be used in 'await' expression"
           else AttributeError "private_ip")
  /\ cloud_of s' = cloud_of (state_of cloud_alice_running)
  /\ exists new, calls s' = app new (calls (state_of cloud_alice_running))
                 /\ forallb (fun c => negb (is_provisioning c)) new = true.
Proof.
  apply (reuse_running_vm_raises cr0 pv0 "alice" (Some "blog") (state_of cloud_alice_running)
           alice_vm ["ProvisioningState/succeeded"; "PowerState/running"]
           "/subscriptions/s/resourceGroups/rg/providers/Microsoft.Network/networkInterfaces/vm-alice-nic"
           [] (PStr "10.0.0.173") []); reflexivity.
Defined.

End C2.

Module C5.
Import VM Manager Examples Trace.

(** Claim C5 (counterexample): for tenant ["alice"] and workspace ["blog"],
    with no VM yet, [allocate_or_reuse_vm] looks up and creates [vm-alice],
    not [vm-alice-blog]. *)
Lemma allocation_creates_vm_alice_not_blog :
  calls (snd (allocate_or_reuse_vm cr0 pv0 "alice" (Some "blog") None None false
                (state_of cloud_empty)))
  = [CDbUpdate "alice" "blog"; CCreate "vm-alice"; CGetVM "vm-alice"]
  /\ Names.get_user_vm_name "alice" (Some "blog") false <> "vm-alice-blog".
Proof. split; [reflexivity|vm_compute; discriminate]. Qed.

(** Claim C5 (amended): for tenant ["alice"] and any workspace (["blog"]
    included), the name [get_user_vm_name] derives on the allocation path
    (with [use_workspace] left false) is ["vm-alice"]; [allocate_or_reuse_vm]
    starts by looking up [vm-alice], and every later call it makes about a VM
    (status, start, delete, create, Docker cleanup) is about [vm-alice]. *)
Theorem allocation_uses_vm_alice (cr : creator) (pv : provisioner) (ws vm_size_arg : option string)
    (force_recreate : bool) (s : st) :
  Names.get_user_vm_name "alice" ws false = "vm-alice"
  /\ exists new,
       calls (snd (allocate_or_reuse_vm cr pv "alice" ws None vm_size_arg force_recreate s))
       = app new (CGetVM "vm-alice" :: calls s)
       /\ forallb (about_vm "vm-alice") new = true.
Proof.
  split; [apply name_alice|].
  revert s. fold (logs_from (about_vm "vm-alice") (CGetVM "vm-alice")
                    (allocate_or_reuse_vm cr pv "alice" ws None vm_size_arg force_recreate)).
  pose proof (logs_from_check_user_vm_allocation cr "alice" ws) as H. cbv zeta in H.
  rewrite name_alice in H.
  unfold allocate_or_reuse_vm. cbv zeta. rewrite name_alice.
  apply logs_from_bind; [exact H|intros v].
  logs_vm_tac.
Qed.
End C5.

Module C7.
Import Deploy Examples.




End C7.

Module C9.
Import VM Examples.

(** Claim C9 (counterexample): for [vm-alice], [get_vm_details] and
    [get_vm_status] answer the same ([None]) when the VM does not exist and
    when the cloud API is failing. *)
Lemma not_found_same_as_unavailable :
  fst (get_vm_details cr0 "vm-alice" (state_of cloud_empty)) = Ok PNone
  /\ fst (get_vm_details cr0 "vm-alice" (state_of cloud_down)) = Ok PNone
  /\ fst (get_vm_status "vm-alice" (state_of cloud_empty)) = Ok None
  /\ fst (get_vm_status "vm-alice" (state_of cloud_down)) = Ok None.
Proof. repeat split; reflexivity. Qed.

(** Claim C9 (amended): when the VM lookup fails, whether because the VM does
    not exist ([ResourceNotFoundError]) or because of any other API error,
    [get_vm_details] returns [None] without raising; likewise [get_vm_status]
    returns [None] for both failures of the instance-view call. *)
Theorem details_status_conflate_failures (cr : creator) (name : string) (s : st) (m1 m2 : string)
    (Hget : vm_get (cloud_of s) name = ApiNotFound \/ vm_get (cloud_of s) name = ApiError m1)
    (Hview : vm_instance_view (cloud_of s) name = ApiNotFound
             \/ vm_instance_view (cloud_of s) name = ApiError m2) :
  fst (get_vm_details cr name s) = Ok PNone /\ fst (get_vm_status name s) = Ok None.
Proof.
  split.
  - cbv [get_vm_details try_except bind api record get_state ret raise].
    destruct Hget as [H|H]; cbn [cloud_of]; rewrite H; reflexivity.
  - cbv [get_vm_status try_except bind api record get_state ret raise].
    destruct Hview as [H|H]; cbn [cloud_of]; rewrite H; reflexivity.
Qed.

Lemma details_status_conflate_failures_witness :
  fst (get_vm_details cr0 "vm-alice" (state_of cloud_down)) = Ok PNone
  /\ fst (get_vm_status "vm-alice" (state_of cloud_down)) = Ok None.
Proof.
  apply (details_status_conflate_failures cr0 "vm-alice" (state_of cloud_down)
           "503 Service Unavailable" "503 Service Unavailable");
    right; reflexivity.
Defined.

End C9.

Module C3.
Import VM Manager Examples.

(** [SpotVMCreator] defines no [run_vm_command]: the lookup raises. *)
Lemma run_vm_command_raises (vm_output : string -> string -> option string)
    (name script : string) (s : st) :
  run_vm_command vm_output name script s = (Exc (AttributeError "run_vm_command"), s).
Proof. reflexivity. Qed.

Lemma never_true_ret_false : never_true (ret false).
Proof. intros s; discriminate. Qed.

Lemma never_true_bind {A} (m : M A) (k : A -> M bool) :
  (forall a, never_true (k a)) -> never_true (bind m k).
Proof.
  intros Hk s. unfold bind. destruct (m s) as [[a|e] s']; [apply Hk|discriminate].
Qed.

Lemma never_true_run_vm_command (vm_output : string -> string -> option string)
    (name script : string) (k : pyval -> M bool) :
  never_true (bind (run_vm_command vm_output name script) k).
Proof. intros s. unfold bind. rewrite run_vm_command_raises. discriminate. Qed.

Lemma try_false (m : M bool) (s : st) :
  never_true m -> fst (try_except m (fun _ => ret false) s) = Ok false.
Proof.
  intros N. specialize (N s). unfold try_except.
  destruct (m s) as [[[|]|e] s'] eqn:E; simpl in *; [congruence|reflexivity|reflexivity].
Qed.

(** Claim C3 (code bug): [is_vm_docker_ready] answers [False] for every
    tenant, workspace, cloud and VM output, including a running VM whose
    cloud-init reports ["status: done"] and whose Docker answers its version:
    the [run_vm_command] it calls does not exist on [SpotVMCreator], and the
    [AttributeError] is swallowed. *)
Theorem is_vm_docker_ready_always_false
    (vm_output : string -> string -> option string) (user workspace : string) (s : st) :
  fst (is_vm_docker_ready vm_output user workspace s) = Ok false.
Proof.
  assert (Inner : forall name,
    never_true
      (exists_ <- vm_exists name ;;
       if negb exists_ then ret false else
       running <- is_vm_running name ;;
       if negb running then get_vm_status name ;;; ret false else
       cloud_init_status <- run_vm_command vm_output name "cloud-init status" ;;
       match cloud_init_status with
       | PStr out =>
           if negb (py_truthy cloud_init_status) || negb (Py.contains "status: done" out)
           then ret false
           else
             docker_version <- run_vm_command vm_output name "docker --version" ;;
             match docker_version with
             | PStr v => ret (py_truthy docker_version && Py.contains "Docker version" v)
             | _ => ret false
             end
       | _ => ret false
       end)).
  { intros name. apply never_true_bind. intros [|]; [|apply never_true_ret_false].
    apply never_true_bind. intros [|].
    - apply never_true_run_vm_command.
    - apply never_true_bind. intros _. apply never_true_ret_false. }
  unfold is_vm_docker_ready. cbv zeta. apply try_false. apply Inner.
Qed.

(** The failing input: tenant ["alice"], workspace ["blog"], VM [vm-alice]
    running, cloud-init done and Docker installed. *)
Lemma is_vm_docker_ready_alice :
  fst (vm_exists "vm-alice" (state_of cloud_alice_running)) = Ok true
  /\ fst (Manager.is_vm_running "vm-alice" (state_of cloud_alice_running)) = Ok true
  /\ ready_vm_output "vm-alice" "cloud-init status" = Some "status: done"
  /\ ready_vm_output "vm-alice" "docker --version" = Some "Docker version 27.0.3, build 7d4bcd8"
  /\ fst (is_vm_docker_ready ready_vm_output "alice" "blog" (state_of cloud_alice_running))
     = Ok false.
Proof. repeat split; reflexivity. Qed.

End C3.

(* ------------------------------------------------------------------ *)
(** ** Facts on strings *)

Module StrFacts.

Lemma str_app_assoc (a b c : string) : a ++ (b ++ c) = (a ++ b) ++ c.
Proof. induction a as [|x a IH]; simpl; [reflexivity|]. now rewrite IH. Qed.

Lemma str_app_nil (a : string) : a ++ EmptyString = a.
Proof. induction a as [|x a IH]; simpl; [reflexivity|]. now rewrite IH. Qed.

Lemma prefix_app (a b : string) : String.prefix a (a ++ b) = true.
Proof.
  induction a as [|c a IH]; simpl; [destruct b; reflexivity|].
  destruct (ascii_dec c c) as [_|n]; [exact IH|congruence].
Qed.

Lemma drop_app (a b : string) : Str.drop (String.length a) (a ++ b) = b.
Proof. induction a as [|c a IH]; simpl; [destruct b; reflexivity|exact IH]. Qed.

Lemma replace1_unfold (old new s : string) :
  Str.replace1 old new s =
  if String.prefix old s then new ++ Str.drop (String.length old) s
  else match s with
       | EmptyString => EmptyString
       | String c s' => String c (Str.replace1 old new s')
       end.
Proof. destruct s; reflexivity. Qed.

Lemma replace1_prefix (old new rest : string) :
  Str.replace1 old new (old ++ rest) = new ++ rest.
Proof. rewrite replace1_unfold, prefix_app, drop_app. reflexivity. Qed.

(** Splitting at the separator [c]. *)
Lemma split_acc_app (c : ascii) (acc a b : string) :
  Str.split_acc c acc (a ++ String c b) = app (Str.split_acc c acc a) (Str.split c b).
Proof.
  revert acc. induction a as [|x a IH]; intros acc; simpl.
  - rewrite Ascii.eqb_refl. reflexivity.
  - destruct (Ascii.eqb x c); simpl; [f_equal; apply IH|apply IH].
Qed.

Lemma split_acc_nosep (c : ascii) (acc u : string) :
  Names.all_chars (fun x => negb (Ascii.eqb x c)) u = true ->
  Str.split_acc c acc u = [acc ++ u].
Proof.
  revert acc. induction u as [|x u IH]; intros acc H; simpl in *.
  - now rewrite str_app_nil.
  - apply andb_prop in H as [H1 H2]. apply negb_true_iff in H1. rewrite H1.
    rewrite IH by exact H2. now rewrite <- str_app_assoc.
Qed.

Lemma split_app (c : ascii) (a b : string) :
  Str.split c (a ++ String c b) = app (Str.split c a) (Str.split c b).
Proof. apply split_acc_app. Qed.

Lemma split_nosep (c : ascii) (u : string) :
  Names.all_chars (fun x => negb (Ascii.eqb x c)) u = true -> Str.split c u = [u].
Proof. intros H. unfold Str.split. now rewrite split_acc_nosep. Qed.

Lemma split_at_first_app (c : ascii) (a b : string) :
  Names.all_chars (fun x => negb (Ascii.eqb x c)) a = true ->
  Str.split_at_first c (a ++ String c b) = Some (a, b).
Proof.
  induction a as [|x a IH]; intros H; simpl in *.
  - now rewrite Ascii.eqb_refl.
  - apply andb_prop in H as [H1 H2]. apply negb_true_iff in H1. rewrite H1.
    now rewrite IH.
Qed.

Lemma split_at_first_nosep (c : ascii) (a : string) :
  Names.all_chars (fun x => negb (Ascii.eqb x c)) a = true -> Str.split_at_first c a = None.
Proof.
  induction a as [|x a IH]; intros H; simpl in *; [reflexivity|].
  apply andb_prop in H as [H1 H2]. apply negb_true_iff in H1. rewrite H1.
  now rewrite IH.
Qed.

Lemma take_all (n : nat) (s : string) : String.length s <= n -> Py.take n s = s.
Proof.
  revert n. induction s as [|c s IH]; intros [|n] H; simpl in *; try reflexivity; try lia.
  rewrite IH by lia. reflexivity.
Qed.

Lemma join_app_ne (sep : string) (l m : list string) :
  l <> [] -> m <> [] -> Py.join sep (app l m) = Py.join sep l ++ sep ++ Py.join sep m.
Proof.
  intros Hl Hm. induction l as [|p ps IH]; [congruence|].
  destruct ps as [|q qs].
  - simpl. destruct m; [congruence|reflexivity].
  - change (Py.join sep (app (p :: q :: qs) m)) with (p ++ sep ++ Py.join sep (app (q :: qs) m)).
    rewrite IH by discriminate. simpl. now rewrite !str_app_assoc.
Qed.

Lemma lower_char_not_upper (c : ascii) : Str.is_upper (Py.lower_char c) = false.
Proof. destruct c as [[] [] [] [] [] [] [] []]; vm_compute; reflexivity. Qed.

Lemma lower_not_upper (s : string) :
  Names.all_chars (fun c => negb (Str.is_upper c)) (Py.lower s) = true.
Proof.
  induction s as [|c s IH]; simpl; [reflexivity|].
  rewrite lower_char_not_upper. exact IH.
Qed.

End StrFacts.

(* ------------------------------------------------------------------ *)
(** ** Paths *)

Module PathFacts.
Import StrFacts Helpers.

(** A single path component: not empty, not ["."], without ['/']. *)
Lemma segment_split (u : string) :
  Names.all_chars (fun x => negb (Ascii.eqb x "/")) u = true ->
  PyPath.good_part u = true ->
  filter PyPath.good_part (Str.split "/" u) = [u].
Proof. intros Hs Hg. rewrite split_nosep by exact Hs. simpl. now rewrite Hg. Qed.

Lemma segs_app (a b : string) :
  filter PyPath.good_part (Str.split "/" (a ++ String "/" b))
  = app (filter PyPath.good_part (Str.split "/" a)) (filter PyPath.good_part (Str.split "/" b)).
Proof. rewrite split_app. apply filter_app. Qed.

Lemma segs_uw (u w : string) :
  Names.all_chars (fun x => negb (Ascii.eqb x "/")) u = true -> PyPath.good_part u = true ->
  Names.all_chars (fun x => negb (Ascii.eqb x "/")) w = true -> PyPath.good_part w = true ->
  filter PyPath.good_part (Str.split "/" (u ++ String "/" w)) = [u; w].
Proof.
  intros. rewrite segs_app, !segment_split by assumption. reflexivity.
Qed.

(** The first character of a component is not ['/']. *)
Lemma segment_head (u : string) :
  Names.all_chars (fun x => negb (Ascii.eqb x "/")) u = true -> PyPath.good_part u = true ->
  exists y r, u = String y r /\ Ascii.eqb y "/" = false.
Proof.
  destruct u as [|y r]; [intros _ H; discriminate|].
  simpl. intros H _. apply andb_prop in H as [H _]. apply negb_true_iff in H.
  now exists y, r.
Qed.

Lemma lstrip_shape (base uw : string) (y : ascii) (r : string) :
  uw = String y r -> Ascii.eqb y "/" = false ->
  (exists base', Str.lstrip "/" (base ++ String "/" uw) = base' ++ String "/" uw)
  \/ Str.lstrip "/" (base ++ String "/" uw) = uw.
Proof.
  intros -> Hy. induction base as [|x b IH]; simpl.
  - right. rewrite Hy. reflexivity.
  - destruct (Ascii.eqb x "/"); [exact IH|].
    left. exists (String x b). reflexivity.
Qed.

Lemma prefix_slash_slash (y : ascii) (r : string) :
  Ascii.eqb y "/" = false -> String.prefix "//" (String "/" (String y r)) = false.
Proof.
  intros H. destruct y as [[] [] [] [] [] [] [] []]; try reflexivity.
  vm_compute in H. discriminate.
Qed.

Lemma prefix_slash_head (x : ascii) (t : string) :
  String.prefix "/" (String x t) = true -> x = "/"%char.
Proof.
  destruct x as [[] [] [] [] [] [] [] []]; intros H; try reflexivity;
    vm_compute in H; discriminate.
Qed.

Lemma prefix_slash_other (y : ascii) (r : string) :
  Ascii.eqb y "/" = false -> String.prefix "/" (String y r) = false.
Proof.
  intros H. destruct y as [[] [] [] [] [] [] [] []]; try reflexivity.
  vm_compute in H. discriminate.
Qed.

Lemma ends_cons (x : string) (t s : list string) :
  (exists l, t = app l s) -> exists l, x :: t = app l s.
Proof. intros [l E]. exists (x :: l). now rewrite E. Qed.

Lemma ends_app (p t s : list string) :
  (exists l, t = app l s) -> exists l, app p t = app l s.
Proof. intros [l E]. exists (app p l). now rewrite E, app_assoc. Qed.

Ltac close_parts :=
  repeat first [ exists nil; reflexivity | apply ends_cons | apply ends_app ].

(** Parts of a path ending in two components [u/w] end in [u; w]. *)
Lemma parts_last_two (base u w : string) :
  Names.all_chars (fun x => negb (Ascii.eqb x "/")) u = true -> PyPath.good_part u = true ->
  Names.all_chars (fun x => negb (Ascii.eqb x "/")) w = true -> PyPath.good_part w = true ->
  exists l, PyPath.parts (base ++ String "/" (u ++ String "/" w)) = app l [u; w].
Proof.
  intros Hu Gu Hw Gw.
  pose proof (segs_uw u w Hu Gu Hw Gw) as Huw.
  destruct (segment_head u Hu Gu) as [y [r [Eu Hy]]].
  assert (Euw : u ++ String "/" w = String y (r ++ String "/" w)) by (now rewrite Eu).
  set (uw := u ++ String "/" w) in *.
  unfold PyPath.parts, PyPath.rel_parts, PyPath.splitroot.
  destruct (String.prefix "/" (base ++ String "/" uw)) eqn:P1; simpl.
  - destruct (String.prefix "//" (base ++ String "/" uw)) eqn:P2;
      destruct (String.prefix "///" (base ++ String "/" uw)) eqn:P3; simpl.
    + destruct (lstrip_shape base uw y (r ++ String "/" w) Euw Hy) as [[b' E]|E]; rewrite E.
      * rewrite segs_app, Huw. close_parts.
      * rewrite Huw. close_parts.
    + (* root "//": [base] starts with "//" or is "/" *)
      destruct base as [|x1 [|x2 b']].
      * cbn [append] in P2. rewrite Euw, prefix_slash_slash in P2 by exact Hy.
        discriminate.
      * apply prefix_slash_head in P1. subst x1.
        simpl. rewrite Huw. close_parts.
      * simpl. rewrite segs_app, Huw. close_parts.
    + destruct (lstrip_shape base uw y (r ++ String "/" w) Euw Hy) as [[b' E]|E]; rewrite E.
      * rewrite segs_app, Huw. close_parts.
      * rewrite Huw. close_parts.
    + destruct (lstrip_shape base uw y (r ++ String "/" w) Euw Hy) as [[b' E]|E]; rewrite E.
      * rewrite segs_app, Huw. close_parts.
      * rewrite Huw. close_parts.
  - rewrite segs_app, Huw. close_parts.
Qed.

Lemma last_two_nth (l : list string) (u w d : string) :
  nth (List.length (app l [u; w]) - 2) (app l [u; w]) d = u
  /\ nth (List.length (app l [u; w]) - 1) (app l [u; w]) d = w.
Proof.
  rewrite length_app. simpl.
  replace (List.length l + 2 - 2) with (List.length l + 0) by lia.
  replace (List.length l + 2 - 1) with (List.length l + 1) by lia.
  rewrite !app_nth2_plus. split; reflexivity.
Qed.

(** [extract_username_and_workspace_from_path] inverts the layout
    [<base>/<username>/<workspace>]: for any prefix [base] and components
    [u] and [w] (non-empty, not ["."], without ['/']), it returns [(u, w)]. *)
Theorem extract_username_and_workspace_round_trip (base u w : string)
    (Hu : Names.all_chars (fun x => negb (Ascii.eqb x "/")) u = true)
    (Gu : PyPath.good_part u = true)
    (Hw : Names.all_chars (fun x => negb (Ascii.eqb x "/")) w = true)
    (Gw : PyPath.good_part w = true) :
  extract_username_and_workspace_from_path (base ++ "/" ++ u ++ "/" ++ w) = PathOk u w.
Proof.
  destruct (parts_last_two base u w Hu Gu Hw Gw) as [l E].
  change (base ++ "/" ++ u ++ "/" ++ w) with (base ++ String "/" (u ++ String "/" w)).
  unfold extract_username_and_workspace_from_path. rewrite E. destruct (last_two_nth l u w EmptyString) as [E1 E2]. rewrite E1, E2.
  rewrite length_app. simpl. rewrite Nat.add_comm. reflexivity.
Qed.

Lemma extract_username_and_workspace_round_trip_witness :
  extract_username_and_workspace_from_path
    ("/srv/workspaces" ++ "/" ++ "alice@example.com" ++ "/" ++ "blog")
  = PathOk "alice@example.com" "blog".
Proof.
  apply extract_username_and_workspace_round_trip; reflexivity.
Defined.

(** A path of one component [w] has one part: the function raises
    [NameError] (its [ValueError] message refers to an unbound [e]); the
    absolute path [/w] has the parts [/] and [w], so the username returned
    is ["/"]. *)
Theorem extract_username_and_workspace_short (w : string)
    (Hw : Names.all_chars (fun x => negb (Ascii.eqb x "/")) w = true)
    (Gw : PyPath.good_part w = true) :
  extract_username_and_workspace_from_path w = PathNameError "e"
  /\ extract_username_and_workspace_from_path ("/" ++ w) = PathOk "/" w.
Proof.
  destruct (segment_head w Hw Gw) as [y [r [Ew Hy]]].
  pose proof (segment_split w Hw Gw) as Hs.
  split.
  - unfold extract_username_and_workspace_from_path, PyPath.parts, PyPath.rel_parts,
      PyPath.splitroot.
    assert (P : String.prefix "/" w = false) by (rewrite Ew; now apply prefix_slash_other).
    rewrite P. simpl. rewrite Hs. reflexivity.
  - unfold extract_username_and_workspace_from_path, PyPath.parts, PyPath.rel_parts,
      PyPath.splitroot.
    rewrite Ew in Hs |- *. cbn [append].
    rewrite (prefix_slash_slash y r Hy).
    replace (String.prefix "/" (String "/" (String y r))) with true by reflexivity.
    simpl. rewrite Hy. rewrite Hs. reflexivity.
Qed.

Lemma extract_username_and_workspace_short_witness :
  extract_username_and_workspace_from_path "blog" = PathNameError "e"
  /\ extract_username_and_workspace_from_path ("/" ++ "blog") = PathOk "/" "blog".
Proof. apply extract_username_and_workspace_short; reflexivity. Defined.

End PathFacts.

Module CollectionFacts.
Import StrFacts NameFacts Helpers.

(** [generate_collection_name] returns at most 60 characters, none of them
    an upper-case letter, for every project path and user. *)
Theorem collection_name_bounded_lower (project_base_path user_id : string) :
  String.length (generate_collection_name project_base_path user_id) <= 60
  /\ Names.all_chars (fun c => negb (Str.is_upper c))
       (generate_collection_name project_base_path user_id) = true.
Proof.
  unfold generate_collection_name. split.
  - apply length_take.
  - apply all_chars_take. apply lower_not_upper.
Qed.

End CollectionFacts.

Module MappedPathFacts.
Import StrFacts Helpers.

(** With [BASE_VOLUME_DIR_MAP] unset, or set without a [':'],
    [get_mapped_project_path] raises [ValueError] for every path. *)
Theorem mapped_path_needs_colon (env : option string) (project_path : string)
    (Henv : forall v, env = Some v -> Names.all_chars (fun x => negb (Ascii.eqb x ":")) v = true) :
  get_mapped_project_path env project_path
  = VM.Exc (VM.ValueError "dictionary update sequence element #0 has length 1; 2 is required").
Proof.
  unfold get_mapped_project_path, Str.split_once.
  destruct env as [v|]; [cbv beta iota zeta|reflexivity].
  rewrite split_at_first_nosep by (apply Henv; reflexivity). reflexivity.
Qed.

Lemma mapped_path_needs_colon_witness :
  get_mapped_project_path (Some "/workspaces") "/workspaces/alice/blog"
  = VM.Exc (VM.ValueError "dictionary update sequence element #0 has length 1; 2 is required").
Proof.
  apply mapped_path_needs_colon. intros v E. injection E as <-. reflexivity.
Defined.

(** With [BASE_VOLUME_DIR_MAP = base:volume] ([base] without [':']), a path
    [base ++ rest] is mapped to [volume ++ rest], and a path that does not
    start with [base] is returned unchanged. *)
Theorem mapped_path_prefix (base volume rest project_path : string)
    (Hbase : Names.all_chars (fun x => negb (Ascii.eqb x ":")) base = true) :
  get_mapped_project_path (Some (base ++ ":" ++ volume)) (base ++ rest) = VM.Ok (volume ++ rest)
  /\ (String.prefix base project_path = false ->
      get_mapped_project_path (Some (base ++ ":" ++ volume)) project_path = VM.Ok project_path).
Proof.
  change (base ++ ":" ++ volume) with (base ++ String ":" volume).
  unfold get_mapped_project_path, Str.split_once. cbv beta iota zeta.
  rewrite split_at_first_app by exact Hbase.
  split.
  - rewrite prefix_app, replace1_prefix. reflexivity.
  - intros P. rewrite P. reflexivity.
Qed.

Lemma mapped_path_prefix_witness :
  get_mapped_project_path (Some ("/workspaces" ++ ":" ++ "/mnt/volume"))
    ("/workspaces" ++ "/alice/blog") = VM.Ok ("/mnt/volume" ++ "/alice/blog")
  /\ (String.prefix "/workspaces" "/tmp/x" = false ->
      get_mapped_project_path (Some ("/workspaces" ++ ":" ++ "/mnt/volume")) "/tmp/x"
      = VM.Ok "/tmp/x").
Proof. apply mapped_path_prefix. reflexivity. Defined.

End MappedPathFacts.

(* ------------------------------------------------------------------ *)
(** ** Traefik configuration *)

Module TraefikFacts.
Import Traefik TraefikShape.

Section DictSet.
Context {V W : Type}.

Lemma dict_set_keys_parallel (k : string) (v : V) (w : W) (d : dict V) (e : dict W) :
  map fst d = map fst e -> map fst (dict_set k v d) = map fst (dict_set k w e).
Proof.
  revert e. induction d as [|[k1 v1] d IH]; intros [|[k2 w2] e] H; simpl in *;
    try discriminate; [reflexivity|].
  injection H as -> H. destruct (String.eqb k k2); simpl; [now rewrite H|].
  f_equal. now apply IH.
Qed.

Lemma dict_set_in_keys (k x : string) (v : V) (d : dict V) :
  In x (map fst (dict_set k v d)) <-> x = k \/ In x (map fst d).
Proof.
  induction d as [|[k1 v1] d IH]; simpl.
  { split; [intros [E|[]]; now left|intros [E|[]]; now left]. }
  destruct (String.eqb k k1) eqn:E; simpl.
  - apply String.eqb_eq in E as ->. split.
    + intros [E|Hi]; [now left|now right; right].
    + intros [E|[E|Hi]]; [now left|now left|now right].
  - rewrite IH. split.
    + intros [E'|[E'|Hi]]; [now right; left|now left|now right; right].
    + intros [E'|[E'|Hi]]; [now right; left|now left|now right; right].
Qed.

Lemma dict_set_nodup (k : string) (v : V) (d : dict V) :
  NoDup (map fst d) -> NoDup (map fst (dict_set k v d)).
Proof.
  induction d as [|[k1 v1] d IH]; simpl; intros H.
  - constructor; [intros []|constructor].
  - inversion H as [|? ? Hn Hd]; subst.
    destruct (String.eqb k k1) eqn:E; simpl.
    + apply String.eqb_eq in E as ->. now constructor.
    + constructor; [|now apply IH].
      rewrite dict_set_in_keys. intros [->|Hi]; [|contradiction].
      rewrite String.eqb_refl in E. discriminate.
Qed.

Lemma dict_set_in_pair (k x : string) (v y : V) (d : dict V) :
  In (x, y) (dict_set k v d) -> (x = k /\ y = v) \/ In (x, y) d.
Proof.
  induction d as [|[k1 v1] d IH]; simpl.
  - intros [E|[]]. injection E as -> ->. now left.
  - destruct (String.eqb k k1); simpl.
    + intros [E|Hi]; [injection E as -> ->; now left|tauto].
    + intros [E|Hi]; [tauto|]. destruct (IH Hi); tauto.
Qed.

End DictSet.

Section Shape.
Variables base_url service_name private_ip : string.
Variable ports : list Z.

Lemma emit_shape (service suffix : string) (port : Z) (g : gen_state) :
  In port ports -> shape base_url private_ip ports g ->
  shape base_url private_ip ports (emit base_url service_name private_ip service suffix port g).
Proof.
  intros Hp (Hk & Hn & Hr & Hs & Hu).
  unfold emit, shape; cbv zeta; cbn [g_routers g_services g_final_urls].
  set (key := service_name ++ "-" ++ service ++ suffix).
  split; [|split; [|split; [|split; [|intros u; split]]]].
  - now apply dict_set_keys_parallel.
  - now apply dict_set_nodup.
  - intros k r Hi. apply dict_set_in_pair in Hi as [[-> ->]|Hi]; [now split|].
    exact (Hr k r Hi).
  - intros k sv Hi. apply dict_set_in_pair in Hi as [[-> ->]|Hi]; [now exists port|].
    exact (Hs k sv Hi).
  - rewrite in_app_iff. intros [Hi|[<-|[]]].
    + apply Hu in Hi as [k [Hk' ->]]. exists k. split; [|reflexivity].
      apply dict_set_in_keys. now right.
    + exists key. split; [apply dict_set_in_keys; now left|reflexivity].
  - intros [k [Hi ->]]. apply dict_set_in_keys in Hi as [->|Hi]; rewrite in_app_iff.
    + right. now left.
    + left. apply Hu. now exists k.
Qed.

Lemma emit_ports_shape (service : string) (multiport : bool) (ps : list Z) :
  forall index g, incl ps ports -> shape base_url private_ip ports g ->
  shape base_url private_ip ports
    (emit_ports base_url service_name private_ip service multiport index ps g).
Proof.
  induction ps as [|p ps IH]; intros index g Hi Hg; simpl; [exact Hg|].
  apply IH; [intros x Hx; apply Hi; now right|].
  apply emit_shape; [apply Hi; now left|exact Hg].
Qed.

Lemma emit_services_shape (sp : dict (list Z)) :
  forall g, (forall s ps, In (s, ps) sp -> incl ps ports) ->
  shape base_url private_ip ports g ->
  shape base_url private_ip ports (emit_services base_url service_name private_ip sp g).
Proof.
  induction sp as [|[s ps] sp IH]; intros g Hi Hg; simpl; [exact Hg|].
  apply IH; [intros s' ps' H; apply (Hi s'); now right|].
  apply emit_ports_shape; [apply (Hi s); now left|exact Hg].
Qed.

End Shape.

Lemma shape_empty (base_url private_ip : string) (ports : list Z) :
  shape base_url private_ip ports {| g_routers := []; g_services := []; g_final_urls := [] |}.
Proof.
  unfold shape; simpl.
  split; [reflexivity|split; [constructor|split; [intros k r []|split; [intros k sv []|]]]].
  intros u; split; [intros []|intros [k [[] _]]].
Qed.

Lemma emit_ports_urls (base_url service_name private_ip service : string) (mp : bool)
    (ps : list Z) : forall index g,
  g_final_urls (emit_ports base_url service_name private_ip service mp index ps g)
  = app (g_final_urls g) (map (fun i => (service_name ++ "-" ++ service
        ++ (if mp then Py.str_of_int (index + Z.of_nat i) else EmptyString)) ++ "." ++ base_url)
        (seq 0 (List.length ps))).
Proof.
  induction ps as [|p ps IH]; intros index g; simpl; [now rewrite app_nil_r|].
  rewrite IH. simpl. rewrite <- app_assoc. simpl. f_equal. f_equal.
  - destruct mp; [|reflexivity]. now rewrite Z.add_0_r.
  - rewrite <- seq_shift, map_map. apply map_ext. intros i.
    destruct mp; [|reflexivity].
    replace (index + 1 + Z.of_nat i)%Z with (index + Z.of_nat (S i))%Z by lia. reflexivity.
Qed.

Lemma emit_services_urls (base_url service_name private_ip : string)
    (sp : dict (list Z)) : forall g,
  g_final_urls (emit_services base_url service_name private_ip sp g)
  = app (g_final_urls g) (flat_map (fun '(service, ports) =>
           map (fun i => (service_name ++ "-" ++ service
                 ++ (if Nat.ltb 1 (List.length ports) then Py.str_of_int (1 + Z.of_nat i)
                     else EmptyString)) ++ "." ++ base_url)
               (seq 0 (List.length ports))) sp).
Proof.
  induction sp as [|[s ps] sp IH]; intros g; simpl; [now rewrite app_nil_r|].
  rewrite IH, emit_ports_urls, <- app_assoc. reflexivity.
Qed.

(** [generate_toml] keeps its config consistent: routers and services have
    the same names, with no duplicate; each router sends its own name under
    the host [name.base_url]; each service balances to one port of
    [service_ports] on [private_ip]; the URLs returned are exactly the hosts
    of the routers. *)
Theorem generate_toml_consistent (base_url base_location service_name private_ip : string)
    (service_ports : dict (list Z)) :
  let '(_, urls, config) :=
    generate_toml base_url base_location service_name private_ip service_ports in
  shape base_url private_ip (flat_map snd service_ports)
    {| g_routers := routers config; g_services := services config; g_final_urls := urls |}.
Proof.
  unfold generate_toml; cbv beta iota zeta. cbn [routers services].
  pose proof (emit_services_shape base_url service_name private_ip (flat_map snd service_ports)
    service_ports {| g_routers := []; g_services := []; g_final_urls := [] |}) as H.
  destruct (emit_services base_url service_name private_ip service_ports
    {| g_routers := []; g_services := []; g_final_urls := [] |}) as [r sv u].
  apply H; [|apply shape_empty].
  intros s ps Hi x Hx. apply in_flat_map. now exists (s, ps).
Qed.

(** Each port of each service yields one URL, in order:
    [service_name-service-index.base_url] with [index] counted from 1 when the
    service has several ports, [service_name-service.base_url] when it has
    one. *)
Theorem generate_toml_urls (base_url base_location service_name private_ip : string)
    (service_ports : dict (list Z)) :
  let '(_, urls, _) :=
    generate_toml base_url base_location service_name private_ip service_ports in
  urls = flat_map (fun '(service, ports) =>
           map (fun i => (service_name ++ "-" ++ service
                 ++ (if Nat.ltb 1 (List.length ports) then Py.str_of_int (1 + Z.of_nat i)
                     else EmptyString)) ++ "." ++ base_url)
               (seq 0 (List.length ports))) service_ports.
Proof.
  unfold generate_toml; cbv beta iota zeta.
  rewrite emit_services_urls. reflexivity.
Qed.

End TraefikFacts.

(* ------------------------------------------------------------------ *)
(** ** Compose command lines *)

Module ComposeFacts.
Import StrFacts Compose.

Lemma join_cons_app (sep x : string) (T L : list string) :
  T <> [] -> L <> [] ->
  Py.join sep (app (x :: T) L) = x ++ sep ++ Py.join sep T ++ sep ++ Py.join sep L.
Proof.
  intros HT HL. destruct T as [|t T']; [congruence|].
  change (app (x :: t :: T') L) with (x :: app (t :: T') L).
  change (Py.join sep (x :: app (t :: T') L)) with (x ++ sep ++ Py.join sep (app (t :: T') L)).
  rewrite join_app_ne by (assumption || discriminate). reflexivity.
Qed.

(** For the same arguments, the deploy command and the build command share
    the same [docker ...] prefix (context, compose file, project name and env
    file options): the deploy command ends it with [up -d --build], the build
    command with [build]. *)
Theorem deploy_and_build_share_prefix (compose_file project_name : string)
    (env_file_arg context_name : option string) :
  exists rest,
    generate_deploy_command compose_file project_name env_file_arg context_name
      = "docker " ++ rest ++ " up -d --build"
    /\ generate_build_command compose_file project_name env_file_arg context_name
      = "docker " ++ rest ++ " build".
Proof.
  unfold generate_deploy_command, generate_build_command; cbv zeta.
  match goal with
  | |- exists rest, Py.join _ (app (app (app ?P _) _) _) = _ /\ _ =>
      assert (HP : exists T, P = "docker" :: T /\ T <> [])
        by (destruct (Py.truthy context_name), (Py.truthy env_file_arg);
            eexists; (split; [reflexivity|discriminate]));
      destruct HP as [T [HP HT]]; rewrite HP
  end.
  exists (Py.join " " T).
  rewrite <- !app_assoc.
  split; rewrite join_cons_app by (assumption || discriminate); reflexivity.
Qed.

End ComposeFacts.

(* ------------------------------------------------------------------ *)
(** ** VM operations of [SpotVMManager] *)

Module VMInfoFacts.
Import VM Manager VMOps.

Ltac unfold_m :=
  cbv beta iota zeta delta [api try_except bind record set_cloud get_state ret raise index
    py_await dict_get] in *.

Section Creator.
Variable cr : creator.

Lemma get_vm_status_total (n : string) (s : st) :
  exists o, fst (get_vm_status n s) = Ok o
  /\ cloud_of (snd (get_vm_status n s)) = cloud_of s
  /\ (forall s', cloud_of s' = cloud_of s -> fst (get_vm_status n s') = Ok o).
Proof.
  unfold get_vm_status; unfold_m; simpl.
  destruct (vm_instance_view (cloud_of s) n) as [codes| |m] eqn:E; simpl;
    eexists; (split; [reflexivity|split; [reflexivity|]]);
    intros s' Hs; simpl; rewrite Hs, E; reflexivity.
Qed.

Lemma get_vm_details_total (n : string) (s : st) :
  cloud_of (snd (get_vm_details cr n s)) = cloud_of s
  /\ (fst (get_vm_details cr n s) = Ok PNone
      \/ exists o kvs, fst (get_vm_status n s) = Ok o
         /\ fst (get_vm_details cr n s) = Ok (PDict kvs)
         /\ kvs <> []
         /\ lookup kvs "status" = Some (opt_str o)
         /\ lookup kvs "error" = None).
Proof.
  unfold get_vm_details; unfold_m; simpl.
  destruct (vm_get (cloud_of s) n) as [vm| |m] eqn:E; simpl;
    [|split; [reflexivity|now left]..].
  match goal with |- context [get_vm_status n ?s1] =>
    destruct (get_vm_status_total n s1) as [o [Ho [Hc Hdet]]];
    destruct (get_vm_status n s1) as [r s2] eqn:G end.
  simpl in Ho, Hc. subst r. simpl.
  assert (Hs : fst (get_vm_status n s) = Ok o) by (apply Hdet; reflexivity).
  destruct (vm_nic_ids vm) as [|nic rest]; simpl; [split; [exact Hc|now left]|].
  destruct (nic_get (cloud_of s2) (last_segment nic)) as [ips| |m]; simpl;
    [|split; [exact Hc|now left]..].
  destruct ips as [|ip ips]; simpl; [split; [exact Hc|now left]|].
  split; [exact Hc|right].
  eexists o, _. split; [exact Hs|split; [reflexivity|split; [discriminate|split; reflexivity]]].
Qed.

Lemma user_vm_info_shape (user_id : string) (workspace_id : option string) (s : st) :
  exists kvs,
    fst (get_user_vm_info cr user_id workspace_id s) = Ok (PDict kvs)
    /\ lookup kvs "error" = None
    /\ lookup kvs "vm_name" = Some (PStr (Names.get_user_vm_name user_id workspace_id false))
    /\ ((lookup kvs "allocated" = Some (PBool false)
         /\ lookup kvs "status" = Some (PStr "not_found"))
        \/ (lookup kvs "allocated" = Some (PBool true)
            /\ exists b v, lookup kvs "is_running" = Some (PBool b)
                           /\ lookup kvs "status" = Some v
                           /\ b = py_eq_str v "running")).
Proof.
  unfold get_user_vm_info, is_vm_running; unfold_m; simpl.
  set (name := Names.get_user_vm_name user_id workspace_id false).
  destruct (get_vm_details_total name s) as [Hc [Hn|[o [kvs [Hs [Hd [Hne [Hst Her]]]]]]]];
    destruct (get_vm_details cr name s) as [r s1]; simpl in Hc;
    [simpl in Hn; subst r|simpl in Hd; subst r].
  - simpl. eexists. split; [reflexivity|]. split; [reflexivity|]. split; [reflexivity|].
    left. split; reflexivity.
  - destruct kvs as [|kv kvs']; [congruence|]. simpl.
    destruct (get_vm_status_total name s1) as [o' [Ho' [Hc' Hdet']]].
    destruct (get_vm_status name s1) as [r s2]; simpl in Ho', Hc'; subst r. simpl.
    rewrite Hst.
    assert (Eo : Ok o = Ok o') by (rewrite <- Hs; apply Hdet'; exact (eq_sym Hc)).
    injection Eo as <-.
    destruct (lookup (kv :: kvs') "private_ip"), (lookup (kv :: kvs') "vm_size"),
      (lookup (kv :: kvs') "location"); simpl;
    (eexists; split; [reflexivity|]; split; [reflexivity|]; split; [reflexivity|];
     right; split; [reflexivity|];
     exists (match o with Some st0 => String.eqb st0 "running" | None => false end), (opt_str o);
     split; [reflexivity|split; [reflexivity|destruct o; reflexivity]]).
Qed.

(** [get_user_vm_info] never answers through its exception handler, whatever
    the cloud answers: the dict it returns has no ['error'] key and names the
    user's VM. Either the VM is reported [allocated: False] with status
    ['not_found'], or it is reported [allocated: True] with a [status] entry
    and a boolean [is_running] entry. ([status] and [is_running] come from two
    separate reads of the instance view, so nothing is said about their
    agreement.) *)
Theorem get_user_vm_info_answers (user_id : string) (workspace_id : option string) (s : st) :
  exists kvs,
    fst (get_user_vm_info cr user_id workspace_id s) = Ok (PDict kvs)
    /\ lookup kvs "error" = None
    /\ lookup kvs "vm_name" = Some (PStr (Names.get_user_vm_name user_id workspace_id false))
    /\ ((lookup kvs "allocated" = Some (PBool false)
         /\ lookup kvs "status" = Some (PStr "not_found"))
        \/ (lookup kvs "allocated" = Some (PBool true)
            /\ (exists b, lookup kvs "is_running" = Some (PBool b))
            /\ (exists v, lookup kvs "status" = Some v))).
Proof.
  destruct (user_vm_info_shape user_id workspace_id s)
    as [kvs [Hr [He [Hn [Hf|[Ha [b [v [Hb [Hv _]]]]]]]]]].
  - exists kvs. split; [exact Hr|]. split; [exact He|]. split; [exact Hn|]. left. exact Hf.
  - exists kvs. split; [exact Hr|]. split; [exact He|]. split; [exact Hn|].
    right. split; [exact Ha|]. split; [exists b; exact Hb|exists v; exact Hv].
Qed.

End Creator.
End VMInfoFacts.

Module MonitorFacts.
Import VM Manager VMOps Trace.

Ltac unfold_m :=
  cbv beta iota zeta delta [api try_except bind record set_cloud get_state ret raise index
    py_await dict_get] in *.

Section Monitor.
Variable cr : creator.
Variable pv : provisioner.

(** [monitor_spot_vm_health] never answers through its exception handler:
    [get_user_vm_info] always returns a dict naming the VM, so neither the
    [KeyError] of [vm_info['vm_name']] nor any other exception can occur.
    Its answer is a dict whose status is never ['error'] and which has no
    ['error'] key. *)
Theorem monitor_spot_vm_health_never_errors (user_id : string) (workspace_id : option string)
    (s : st) :
  exists kvs,
    fst (monitor_spot_vm_health cr pv user_id workspace_id s) = Ok (PDict kvs)
    /\ lookup kvs "status" <> Some (PStr "error")
    /\ lookup kvs "error" = None.
Proof.
  unfold monitor_spot_vm_health, start_vm; unfold_m; simpl.
  destruct (VMInfoFacts.user_vm_info_shape cr user_id workspace_id s)
    as [kvs [Hr [He [Hn Hc]]]].
  destruct (get_user_vm_info cr user_id workspace_id s) as [r s1]; simpl in Hr; subst r.
  simpl.
  destruct Hc as [[Ha Hst]|[Ha [b [v [Hb [Hv _]]]]]]; rewrite Ha; simpl.
  { eexists; split; [reflexivity|split; [vm_compute; discriminate|reflexivity]]. }
  rewrite Hn, Hv. simpl.
  destruct (py_eq_str v "deallocated" || py_eq_str v "stopped"); simpl.
  - destruct (start_op pv (Names.get_user_vm_name user_id workspace_id false) (cloud_of s1))
      as [ok c]; simpl.
    destruct ok; simpl.
    + match goal with |- context [get_user_vm_info cr user_id workspace_id ?s2] =>
        destruct (VMInfoFacts.user_vm_info_shape cr user_id workspace_id s2)
          as [kvs2 [Hr2 _]];
        destruct (get_user_vm_info cr user_id workspace_id s2) as [r2 s3] end.
      simpl in Hr2; subst r2. simpl.
      eexists; split; [reflexivity|split; [vm_compute; discriminate|reflexivity]].
    + eexists; split; [reflexivity|split; [vm_compute; discriminate|reflexivity]].
  - destruct (py_eq_str v "running"); simpl;
      (eexists; split; [reflexivity|split; [vm_compute; discriminate|reflexivity]]).
Qed.

(** Every cloud call of [monitor_spot_vm_health] reads a VM, its instance
    view or its NIC, or starts a VM: it never creates nor deletes a VM, runs
    no command on it, cleans up no Docker state and writes nothing to the
    workspace store. *)
Theorem monitor_spot_vm_health_never_provisions (user_id : string) (workspace_id : option string) :
  logs read_or_start (monitor_spot_vm_health cr pv user_id workspace_id).
Proof.
  unfold monitor_spot_vm_health, get_user_vm_info, get_vm_details, get_vm_status,
    is_vm_running, dict_get, start_vm.
  logs_tac.
Qed.

End Monitor.
End MonitorFacts.

Module LifecycleFacts.
Import VM Manager VMOps.

Ltac unfold_m :=
  cbv beta iota zeta delta [api try_except bind record set_cloud get_state ret raise index
    py_await dict_get] in *.

(** When the lookup of the user's VM fails, whether the VM does not exist or
    the cloud API answers an error, [get_user_vm_info] reports the same
    answer: not allocated, with status ['not_found']. *)
Theorem get_user_vm_info_lookup_failure (cr : creator) (user_id : string)
    (workspace_id : option string) (s : st)
    (Hfail : match vm_get (cloud_of s) (Names.get_user_vm_name user_id workspace_id false) with
             | ApiOk _ => False
             | ApiNotFound | ApiError _ => True
             end) :
  fst (get_user_vm_info cr user_id workspace_id s)
  = Ok (PDict [("allocated", PBool false);
               ("vm_name", PStr (Names.get_user_vm_name user_id workspace_id false));
               ("status", PStr "not_found")]).
Proof.
  unfold get_user_vm_info, get_vm_details; unfold_m; simpl.
  destruct (vm_get (cloud_of s) (Names.get_user_vm_name user_id workspace_id false));
    [contradiction|reflexivity|reflexivity].
Qed.

Lemma get_user_vm_info_lookup_failure_witness :
  match vm_get (cloud_of (Examples.state_of Examples.cloud_down))
          (Names.get_user_vm_name "alice" None false) with
  | ApiOk _ => False
  | ApiNotFound | ApiError _ => True
  end
  /\ fst (get_user_vm_info Examples.cr0 "alice" None (Examples.state_of Examples.cloud_down))
     = Ok (PDict [("allocated", PBool false);
                  ("vm_name", PStr (Names.get_user_vm_name "alice" None false));
                  ("status", PStr "not_found")]).
Proof.
  split; [vm_compute; exact I|].
  apply get_user_vm_info_lookup_failure. vm_compute. exact I.
Defined.

(** [deallocate_user_vm] looks the VM up once. A VM that the lookup does not
    find, also when the cloud API answers an error, counts as deallocated:
    the answer is [True] and nothing else is done. An existing VM is stopped,
    and the answer is the answer of [stop_vm]. *)
Theorem deallocate_user_vm_effect (stop_op : string -> cloud -> bool * cloud)
    (user_id : string) (workspace_id : option string) (s : st) :
  let name := Names.get_user_vm_name user_id workspace_id false in
  let s1 := {| cloud_of := cloud_of s; calls := CGetVM name :: calls s;
               clock := clock s; db_ok := db_ok s |} in
  deallocate_user_vm stop_op user_id workspace_id s
  = match vm_get (cloud_of s) name with
    | ApiOk _ =>
        (Ok (fst (stop_op name (cloud_of s))),
         {| cloud_of := snd (stop_op name (cloud_of s)); calls := calls s1;
            clock := clock s; db_ok := db_ok s |})
    | ApiNotFound | ApiError _ => (Ok true, s1)
    end.
Proof.
  intros name s1.
  unfold deallocate_user_vm, vm_exists, stop_vm; unfold_m; simpl.
  fold name. destruct (vm_get (cloud_of s) name); simpl; [|reflexivity|reflexivity].
  destruct (stop_op name (cloud_of s)) as [ok c]; reflexivity.
Qed.

(** [delete_user_vm] on an existing VM calls [SpotVMCreator.delete_spot_vm],
    which re-raises the errors of the VM lookup and of the VM deletion; the
    handler of [delete_user_vm] then answers [False]. When the deletion
    succeeds and a workspace is given, [delete_user_vm] awaits
    [clear_workspace_vm_config], a synchronous method answering a bool (its
    update cannot run inside the running event loop), so the await raises
    [TypeError] and the answer is [False] although the VM is deleted; without
    a workspace the answer is [True]. A VM the lookup does not find, also on a
    cloud error, counts as deleted: [True], nothing done. *)
Theorem delete_user_vm_effect (delete_result : string -> cloud -> outcome unit * cloud)
    (user_id : string) (workspace_id : option string) (s : st) :
  let name := Names.get_user_vm_name user_id workspace_id false in
  let s1 := {| cloud_of := cloud_of s; calls := CGetVM name :: calls s;
               clock := clock s; db_ok := db_ok s |} in
  delete_user_vm delete_result user_id workspace_id s
  = match vm_get (cloud_of s) name with
    | ApiOk _ =>
        (Ok (match fst (delete_result name (cloud_of s)) with
             | Ok _ => negb (Py.truthy workspace_id)
             | Exc _ => false
             end),
         {| cloud_of := snd (delete_result name (cloud_of s));
            calls := CDelete name :: calls s1;
            clock := clock s; db_ok := db_ok s |})
    | ApiNotFound | ApiError _ => (Ok true, s1)
    end.
Proof.
  intros name s1.
  unfold delete_user_vm, vm_exists, delete_spot_vm_raising, clear_workspace_vm_config;
    unfold_m; simpl.
  fold name. destruct (vm_get (cloud_of s) name); simpl; [|reflexivity|reflexivity].
  destruct (delete_result name (cloud_of s)) as [[u|e] c]; simpl; [|reflexivity].
  destruct workspace_id as [w|]; simpl; [|reflexivity].
  destruct w; reflexivity.
Qed.

End LifecycleFacts.

(* ------------------------------------------------------------------ *)
(** ** Listing the users' VMs *)

Module ListingFacts.
Import StrFacts VM VMOps.

Lemma vm_name_of_clean (user_id : string) (workspace_id : option string) :
  String.length (Py.lower (Py.filter_str Names.vm_char user_id)) <= 61 ->
  Names.get_user_vm_name user_id workspace_id false
  = "vm-" ++ Py.lower (Py.filter_str Names.vm_char user_id).
Proof.
  intros H. unfold Names.get_user_vm_name. rewrite andb_false_r.
  apply take_all. simpl. lia.
Qed.

Lemma drop_vm_prefix (c : string) : Str.drop 3 ("vm-" ++ c) = c.
Proof. reflexivity. Qed.

(** A VM named by [get_user_vm_name] for a user whose cleaned id has no
    ['-'] (and at most 61 characters, so the name is not cut) is listed by
    [list_all_user_vms] under that cleaned id, with no workspace: the
    workspace of the VM is never recovered, since the manager's names do not
    carry it. *)
Theorem list_all_user_vms_round_trip (user_id : string) (workspace_id : option string)
    (kvs : list (string * pyval))
    (Hname : lookup kvs "vm_name" = Some (PStr (Names.get_user_vm_name user_id workspace_id false)))
    (Hdash : Names.all_chars (fun x => negb (Ascii.eqb x "-"))
               (Py.lower (Py.filter_str Names.vm_char user_id)) = true)
    (Hlen : String.length (Py.lower (Py.filter_str Names.vm_char user_id)) <= 61) :
  exists running,
    list_all_user_vms_of [PDict kvs]
    = [{| uv_user_id := Py.lower (Py.filter_str Names.vm_char user_id);
          uv_workspace_id := None; uv_vm_details := PDict kvs; uv_is_running := running |}].
Proof.
  rewrite (vm_name_of_clean user_id workspace_id Hlen) in Hname.
  unfold list_all_user_vms_of, user_vms_loop. rewrite Hname, prefix_app, drop_vm_prefix.
  rewrite split_nosep by exact Hdash. simpl.
  eexists. reflexivity.
Qed.

Lemma list_all_user_vms_round_trip_witness :
  exists running,
    list_all_user_vms_of [PDict [("vm_name", PStr (Names.get_user_vm_name "Alice" (Some "blog") false));
                                 ("status", PStr "running")]]
    = [{| uv_user_id := Py.lower (Py.filter_str Names.vm_char "Alice");
          uv_workspace_id := None;
          uv_vm_details := PDict [("vm_name", PStr (Names.get_user_vm_name "Alice" (Some "blog") false));
                                  ("status", PStr "running")];
          uv_is_running := running |}].
Proof. apply (list_all_user_vms_round_trip "Alice" (Some "blog")); vm_compute; first [reflexivity | lia]. Defined.

(** A user id whose cleaned form is [a-b] (no other ['-']) and has at most
    61 characters, so that the VM name ["vm-a-b"] is not cut at 64, is listed
    as the user [a] with the workspace [b]: the parsing of
    [list_all_user_vms] splits the user's own id. *)
Theorem list_all_user_vms_splits_user_id (user_id a b : string) (workspace_id : option string)
    (kvs : list (string * pyval))
    (Hname : lookup kvs "vm_name" = Some (PStr (Names.get_user_vm_name user_id workspace_id false)))
    (Hclean : Py.lower (Py.filter_str Names.vm_char user_id) = a ++ "-" ++ b)
    (Ha : Names.all_chars (fun x => negb (Ascii.eqb x "-")) a = true)
    (Hb : Names.all_chars (fun x => negb (Ascii.eqb x "-")) b = true)
    (Hlen : String.length (Py.lower (Py.filter_str Names.vm_char user_id)) <= 61) :
  exists running,
    list_all_user_vms_of [PDict kvs]
    = [{| uv_user_id := a; uv_workspace_id := Some b; uv_vm_details := PDict kvs;
          uv_is_running := running |}].
Proof.
  rewrite (vm_name_of_clean user_id workspace_id Hlen) in Hname. rewrite Hclean in Hname.
  unfold list_all_user_vms_of, user_vms_loop. rewrite Hname, prefix_app, drop_vm_prefix.
  change ("-" ++ b) with (String "-" b).
  rewrite split_app, !split_nosep by assumption. simpl.
  eexists. reflexivity.
Qed.

Lemma list_all_user_vms_splits_user_id_witness :
  exists running,
    list_all_user_vms_of [PDict [("vm_name", PStr (Names.get_user_vm_name "alice-dev" None false))]]
    = [{| uv_user_id := "alice"; uv_workspace_id := Some "dev";
          uv_vm_details := PDict [("vm_name", PStr (Names.get_user_vm_name "alice-dev" None false))];
          uv_is_running := running |}].
Proof. apply (list_all_user_vms_splits_user_id "alice-dev" "alice" "dev" None); vm_compute; first [reflexivity | lia]. Defined.

Lemma user_vms_loop_malformed (l1 l2 : list pyval) (v : pyval) :
  (forall kvs, v <> PDict kvs) -> user_vms_loop (app l1 (v :: l2)) = None.
Proof.
  intros Hv. induction l1 as [|w l1 IH]; simpl.
  - destruct v; try reflexivity. exfalso. eapply Hv. reflexivity.
  - destruct w; try reflexivity.
    destruct (match lookup kvs "vm_name" with Some v0 => v0 | None => PStr "" end);
      try reflexivity.
    destruct (String.prefix "vm-" s); [|exact IH].
    rewrite IH. reflexivity.
Qed.

(** One entry of the VM list that is not a dict makes [list_all_user_vms]
    answer the empty list: the [AttributeError] of [vm.get] is caught for the
    whole loop, and the entries already collected are dropped. *)
Theorem list_all_user_vms_malformed_entry (l1 l2 : list pyval) (v : pyval)
    (Hv : forall kvs, v <> PDict kvs) :
  list_all_user_vms_of (app l1 (v :: l2)) = [].
Proof. unfold list_all_user_vms_of. now rewrite user_vms_loop_malformed. Qed.

Lemma list_all_user_vms_malformed_entry_witness :
  list_all_user_vms_of
    (app [PDict [("vm_name", PStr "vm-alice"); ("status", PStr "running")]]
         (PNone :: [PDict [("vm_name", PStr "vm-bob")]])) = [].
Proof. apply list_all_user_vms_malformed_entry. intros kvs E. discriminate E. Defined.

End ListingFacts.

(* ------------------------------------------------------------------ *)
(** ** Project cleanup *)

Module CleanupFacts.
Import Cleanup.

(** [run_docker_compose_cleanup] always reports success once its commands
    ran, whatever they answered: failed, missing or raising commands are only
    logged. *)
Theorem cleanup_always_succeeds (run : string -> cmd_answer) (container_name : string)
    (context_name : option string) :
  c_success (run_docker_compose_cleanup run container_name context_name) = true
  /\ c_error (run_docker_compose_cleanup run container_name context_name) = None.
Proof.
  unfold run_docker_compose_cleanup; cbv zeta.
  destruct (collect run (cleanup_commands container_name context_name)) as [|[[|] e] r];
    split; reflexivity.
Qed.

Lemma cleanup_commands_three (container_name : string) (context_name : option string) :
  exists down images prune, cleanup_commands container_name context_name = [down; images; prune].
Proof. unfold cleanup_commands. destruct (Py.truthy context_name); do 3 eexists; reflexivity. Qed.

(** The report is decided by the first command that answered a result, not
    by the [down] command: when [down] answers nothing or raises and the
    [images] command succeeds, the cleanup reports that the project was
    cleaned up. *)
Theorem cleanup_reports_first_answer (run : string -> cmd_answer) (container_name : string)
    (context_name : option string) (e : string)
    (Hdown : match run (nth 0 (cleanup_commands container_name context_name) EmptyString) with
             | CmdResult _ _ => False
             | CmdNone | CmdRaises _ => True
             end)
    (Himages : run (nth 1 (cleanup_commands container_name context_name) EmptyString)
               = CmdResult true e) :
  c_output (run_docker_compose_cleanup run container_name context_name)
  = Some "Selective cleanup completed successfully".
Proof.
  destruct (cleanup_commands_three container_name context_name) as [d [i [p E]]].
  rewrite E in Hdown, Himages. simpl in Hdown, Himages.
  unfold run_docker_compose_cleanup; cbv zeta. rewrite E. simpl.
  destruct (run d); [contradiction| |]; rewrite Himages; reflexivity.
Qed.

Lemma cleanup_reports_first_answer_witness :
  c_output (run_docker_compose_cleanup ExtraExamples.down_missing_run "blog-alice" None)
  = Some "Selective cleanup completed successfully".
Proof.
  apply (cleanup_reports_first_answer ExtraExamples.down_missing_run "blog-alice" None EmptyString);
    vm_compute; [exact I|reflexivity].
Defined.

End CleanupFacts.
